(** * Task dispatch and health monitoring of the research platform core

    A shallow embedding of [core/models.py], [core/tasks.py],
    [core/services.py] and [core/views.py]: the Celery tasks that hand
    analysis work to the FastAPI service, the two views that create and
    cancel tasks, and the periodic health sweep.

    Python's exceptions and the mutable database are an exception-and-state
    monad over a [World]; the network, the wall clock and the outcome of
    the write to the paper table are oracles of an [Env]. *)

From stdpp Require Import strings list pretty sorting.

Set Warnings "-register-all".
Local Open Scope string_scope.
Local Open Scope Z_scope.

(** ** Python values *)

(** JSON documents as Python's [json] module decodes them.  A float is kept
    as a decimal literal [mantissa * 10 ^ exponent]; nothing computes on it. *)
Inductive json :=
| JNull
| JBool (b : bool)
| JInt (z : Z)
| JFloat (mantissa exponent : Z)
| JStr (s : string)
| JList (l : list json)
| JDict (kvs : list (string * json)).

(** Lookup behind [key in d], [d[key]] and [d.get(key, dflt)] on a decoded
    dict. *)
Fixpoint dict_lookup (key : string) (kvs : list (string * json)) : option json :=
  match kvs with
  | [] => None
  | (k, v) :: rest => if String.eqb k key then Some v else dict_lookup key rest
  end.

(** [type(j).__name__] *)
Definition type_name (j : json) : string :=
  match j with
  | JNull => "NoneType"
  | JBool _ => "bool"
  | JInt _ => "int"
  | JFloat _ _ => "float"
  | JStr _ => "str"
  | JList _ => "list"
  | JDict _ => "dict"
  end.


(** Exceptions.  [str(exc)] is the message; Celery's [Retry] carries the
    countdown and the exception that caused it. *)
Inductive exn :=
| Exn (cls msg : string)
| Retry (countdown : Z) (exc : exn).

Definition str (e : exn) : string :=
  match e with
  | Exn _ msg => msg
  | Retry _ _ => "Retry"
  end.

Definition uuid := string.
Definition user := string.

(** ** The models of [core/models.py] *)

Inductive task_kind :=
| literature_review
| trend_analysis
| gap_analysis
| paper_analysis.

(** [AIAnalysisTask.status] *)
Inductive task_status :=
| queued
| processing
| completed
| failed.

(** [ResearchPaper.processing_status] *)
Inductive paper_status :=
| PS_pending
| PS_processing
| PS_completed
| PS_failed.


Module ResearchProject.
Record t := {
  id : uuid;
  owner : user;
  title : string;
}.
End ResearchProject.

(** The columns of a paper that the core reads (the request payload) or
    writes (the projection); [relevance_score] is nullable. *)
Module ResearchPaper.
Record t := {
  id : uuid;
  project : uuid;
  title : string;
  authors : json;
  abstract : string;
  doi : string;
  research_areas : json;
  keywords : json;
  relevance_score : json;
  processing_status : paper_status;
  created_at : Z;
  updated_at : Z;
}.

Definition set_keywords (v : json) (p : t) : t :=
  {| id := id p; project := project p; title := title p;
     authors := authors p; abstract := abstract p; doi := doi p;
     research_areas := research_areas p; keywords := v;
     relevance_score := relevance_score p;
     processing_status := processing_status p;
     created_at := created_at p; updated_at := updated_at p |}.

Definition set_research_areas (v : json) (p : t) : t :=
  {| id := id p; project := project p; title := title p;
     authors := authors p; abstract := abstract p; doi := doi p;
     research_areas := v; keywords := keywords p;
     relevance_score := relevance_score p;
     processing_status := processing_status p;
     created_at := created_at p; updated_at := updated_at p |}.

Definition set_relevance_score (v : json) (p : t) : t :=
  {| id := id p; project := project p; title := title p;
     authors := authors p; abstract := abstract p; doi := doi p;
     research_areas := research_areas p; keywords := keywords p;
     relevance_score := v;
     processing_status := processing_status p;
     created_at := created_at p; updated_at := updated_at p |}.

Definition set_processing_status (v : paper_status) (p : t) : t :=
  {| id := id p; project := project p; title := title p;
     authors := authors p; abstract := abstract p; doi := doi p;
     research_areas := research_areas p; keywords := keywords p;
     relevance_score := relevance_score p;
     processing_status := v;
     created_at := created_at p; updated_at := updated_at p |}.

Definition set_updated_at (v : Z) (p : t) : t :=
  {| id := id p; project := project p; title := title p;
     authors := authors p; abstract := abstract p; doi := doi p;
     research_areas := research_areas p; keywords := keywords p;
     relevance_score := relevance_score p;
     processing_status := processing_status p;
     created_at := created_at p; updated_at := v |}.
End ResearchPaper.

(** The text columns that receive values of the remote service
    ([fastapi_task_id], [agent_used]) hold the Python value assigned to
    them; [''] is [JStr ""]. *)
Module AIAnalysisTask.
Record t := {
  id : uuid;
  project : uuid;
  requested_by : option user;
  task_type : task_kind;
  parameters : json;
  papers : list uuid;
  status : task_status;
  results : json;
  error_message : string;
  fastapi_task_id : json;
  agent_used : json;
  created_at : Z;
  updated_at : Z;
  completed_at : option Z;
}.

Definition set_papers (v : list uuid) (x : t) : t :=
  {| id := id x; project := project x; requested_by := requested_by x;
     task_type := task_type x; parameters := parameters x; papers := v;
     status := status x; results := results x;
     error_message := error_message x;
     fastapi_task_id := fastapi_task_id x; agent_used := agent_used x;
     created_at := created_at x; updated_at := updated_at x;
     completed_at := completed_at x |}.

Definition set_status (v : task_status) (x : t) : t :=
  {| id := id x; project := project x; requested_by := requested_by x;
     task_type := task_type x; parameters := parameters x;
     papers := papers x; status := v; results := results x;
     error_message := error_message x;
     fastapi_task_id := fastapi_task_id x; agent_used := agent_used x;
     created_at := created_at x; updated_at := updated_at x;
     completed_at := completed_at x |}.

Definition set_results (v : json) (x : t) : t :=
  {| id := id x; project := project x; requested_by := requested_by x;
     task_type := task_type x; parameters := parameters x;
     papers := papers x; status := status x; results := v;
     error_message := error_message x;
     fastapi_task_id := fastapi_task_id x; agent_used := agent_used x;
     created_at := created_at x; updated_at := updated_at x;
     completed_at := completed_at x |}.

Definition set_error_message (v : string) (x : t) : t :=
  {| id := id x; project := project x; requested_by := requested_by x;
     task_type := task_type x; parameters := parameters x;
     papers := papers x; status := status x; results := results x;
     error_message := v;
     fastapi_task_id := fastapi_task_id x; agent_used := agent_used x;
     created_at := created_at x; updated_at := updated_at x;
     completed_at := completed_at x |}.

Definition set_fastapi_task_id (v : json) (x : t) : t :=
  {| id := id x; project := project x; requested_by := requested_by x;
     task_type := task_type x; parameters := parameters x;
     papers := papers x; status := status x; results := results x;
     error_message := error_message x;
     fastapi_task_id := v; agent_used := agent_used x;
     created_at := created_at x; updated_at := updated_at x;
     completed_at := completed_at x |}.

Definition set_agent_used (v : json) (x : t) : t :=
  {| id := id x; project := project x; requested_by := requested_by x;
     task_type := task_type x; parameters := parameters x;
     papers := papers x; status := status x; results := results x;
     error_message := error_message x;
     fastapi_task_id := fastapi_task_id x; agent_used := v;
     created_at := created_at x; updated_at := updated_at x;
     completed_at := completed_at x |}.

Definition set_updated_at (v : Z) (x : t) : t :=
  {| id := id x; project := project x; requested_by := requested_by x;
     task_type := task_type x; parameters := parameters x;
     papers := papers x; status := status x; results := results x;
     error_message := error_message x;
     fastapi_task_id := fastapi_task_id x; agent_used := agent_used x;
     created_at := created_at x; updated_at := v;
     completed_at := completed_at x |}.
End AIAnalysisTask.

Module ServiceIntegration.
Record t := {
  id : nat;
  service_name : string;
  service_url : string;
  is_active : bool;
  api_key : string;
  last_health_check : option Z;
  is_healthy : bool;
  total_requests : nat;
  failed_requests : nat;
  created_at : Z;
  updated_at : Z;
}.

Definition set_is_healthy (v : bool) (s : t) : t :=
  {| id := id s; service_name := service_name s;
     service_url := service_url s; is_active := is_active s;
     api_key := api_key s; last_health_check := last_health_check s;
     is_healthy := v; total_requests := total_requests s;
     failed_requests := failed_requests s;
     created_at := created_at s; updated_at := updated_at s |}.

Definition set_last_health_check (v : option Z) (s : t) : t :=
  {| id := id s; service_name := service_name s;
     service_url := service_url s; is_active := is_active s;
     api_key := api_key s; last_health_check := v;
     is_healthy := is_healthy s; total_requests := total_requests s;
     failed_requests := failed_requests s;
     created_at := created_at s; updated_at := updated_at s |}.

Definition set_updated_at (v : Z) (s : t) : t :=
  {| id := id s; service_name := service_name s;
     service_url := service_url s; is_active := is_active s;
     api_key := api_key s; last_health_check := last_health_check s;
     is_healthy := is_healthy s; total_requests := total_requests s;
     failed_requests := failed_requests s;
     created_at := created_at s; updated_at := v |}.
End ServiceIntegration.

(** ** The world: database tables, network log, oracles *)

Inductive http_method := GET | POST.

(** A request as handed to [httpx]: [payload] is the [json=] argument,
    [JNull] for a GET; the timeout is in seconds. *)
Record Request := {
  method : http_method;
  url : string;
  payload : json;
  timeout : Z;
}.

Record Response := {
  status_code : Z;
  content : option json;
}.

(** What the network answers to a request: a response, or an exception of
    the transport (connection refused, timeout) given by its class and
    message. *)
Inductive http_outcome :=
| Answered (r : Response)
| TransportError (cls msg : string).

(** Tables are named after [Meta.db_table]; a table is the list of its
    rows, in the order a query without [order_by] yields them.  [sent] is
    every request issued so far, oldest first. *)
Record World := {
  research_projects : list ResearchProject.t;
  research_papers : list ResearchPaper.t;
  ai_analysis_tasks : list AIAnalysisTask.t;
  service_integrations : list ServiceIntegration.t;
  sent : list Request;
  clock_reads : nat;
  paper_writes : nat;
  uuids_drawn : nat;
}.

(** The environment: the setting [FASTAPI_SERVICE_URL], the answer to the
    k-th request, the k-th reading of [timezone.now()], the k-th value of
    [uuid.uuid4()], and whether the k-th write to the paper table fails
    (with the class and message of the exception).  Writes to the task and
    service tables, the core's own store, succeed. *)
Record Env := {
  FASTAPI_SERVICE_URL : string;
  http : nat → http_outcome;
  now : nat → Z;
  uuid4 : nat → uuid;
  paper_write_error : nat → option (string * string);
}.

Definition with_papers (v : list ResearchPaper.t) (w : World) : World :=
  {| research_projects := research_projects w; research_papers := v;
     ai_analysis_tasks := ai_analysis_tasks w;
     service_integrations := service_integrations w; sent := sent w;
     clock_reads := clock_reads w; paper_writes := paper_writes w;
     uuids_drawn := uuids_drawn w |}.

Definition with_tasks (v : list AIAnalysisTask.t) (w : World) : World :=
  {| research_projects := research_projects w;
     research_papers := research_papers w; ai_analysis_tasks := v;
     service_integrations := service_integrations w; sent := sent w;
     clock_reads := clock_reads w; paper_writes := paper_writes w;
     uuids_drawn := uuids_drawn w |}.

Definition with_services (v : list ServiceIntegration.t) (w : World) : World :=
  {| research_projects := research_projects w;
     research_papers := research_papers w;
     ai_analysis_tasks := ai_analysis_tasks w;
     service_integrations := v; sent := sent w;
     clock_reads := clock_reads w; paper_writes := paper_writes w;
     uuids_drawn := uuids_drawn w |}.

Definition with_sent (v : list Request) (w : World) : World :=
  {| research_projects := research_projects w;
     research_papers := research_papers w;
     ai_analysis_tasks := ai_analysis_tasks w;
     service_integrations := service_integrations w; sent := v;
     clock_reads := clock_reads w; paper_writes := paper_writes w;
     uuids_drawn := uuids_drawn w |}.

Definition with_clock_reads (v : nat) (w : World) : World :=
  {| research_projects := research_projects w;
     research_papers := research_papers w;
     ai_analysis_tasks := ai_analysis_tasks w;
     service_integrations := service_integrations w; sent := sent w;
     clock_reads := v; paper_writes := paper_writes w;
     uuids_drawn := uuids_drawn w |}.

Definition with_paper_writes (v : nat) (w : World) : World :=
  {| research_projects := research_projects w;
     research_papers := research_papers w;
     ai_analysis_tasks := ai_analysis_tasks w;
     service_integrations := service_integrations w; sent := sent w;
     clock_reads := clock_reads w; paper_writes := v;
     uuids_drawn := uuids_drawn w |}.

Definition with_uuids_drawn (v : nat) (w : World) : World :=
  {| research_projects := research_projects w;
     research_papers := research_papers w;
     ai_analysis_tasks := ai_analysis_tasks w;
     service_integrations := service_integrations w; sent := sent w;
     clock_reads := clock_reads w; paper_writes := paper_writes w;
     uuids_drawn := v |}.

(** ** Exceptions and state *)

Inductive outcome (A : Type) :=
| Returned (a : A)
| Raised (e : exn).
Arguments Returned {A} a.
Arguments Raised {A} e.

(** A Python statement: it returns or raises, and either way leaves the
    world it has reached (what was written before a [raise] stays). *)
Definition M (A : Type) : Type := World → outcome A * World.

Definition ret {A} (a : A) : M A := λ w, (Returned a, w).

Definition raise {A} (e : exn) : M A := λ w, (Raised e, w).

Definition bind {A B} (m : M A) (k : A → M B) : M B :=
  λ w, match m w with
       | (Returned a, w') => k a w'
       | (Raised e, w') => (Raised e, w')
       end.

(** [try: m  except Exception as e: handler e] *)
Definition try_except {A} (m : M A) (handler : exn → M A) : M A :=
  λ w, match m w with
       | (Returned a, w') => (Returned a, w')
       | (Raised e, w') => handler e w'
       end.

(** [for x in xs: body x]; an exception leaves the loop. *)
Fixpoint for_each {A} (xs : list A) (body : A → M unit) : M unit :=
  match xs with
  | [] => ret tt
  | x :: rest => bind (body x) (λ _, for_each rest body)
  end.

Declare Scope py_scope.
Delimit Scope py_scope with py.
Notation "x <- m ;; k" := (bind m (λ x, k))
  (at level 100, m at next level, right associativity) : py_scope.
Notation "m ;; k" := (bind m (λ _, k))
  (at level 100, right associativity) : py_scope.
Local Open Scope py_scope.

(** ** Tables *)

Section Table.
Context {A K : Type} `{EqDecision K} (key : A → K).

Definition has_pk (k : K) (row : A) : bool := bool_decide (key row = k).

(** [Model.objects.get(pk=k)], [None] for [DoesNotExist]. *)
Definition table_get (k : K) (rows : list A) : option A :=
  List.find (has_pk k) rows.

(** [row.save()]: an UPDATE of the row with the instance's primary key,
    and an INSERT when there is none. *)
Definition table_save (row : A) (rows : list A) : list A :=
  if existsb (has_pk (key row)) rows
  then map (λ r, if has_pk (key row) r then row else r) rows
  else rows ++ [row].
End Table.

Section Core.
Context (env : Env).

(** *** Clock, identifiers, network *)

Definition timezone_now : M Z :=
  λ w, (Returned (now env (clock_reads w)),
        with_clock_reads (S (clock_reads w)) w).

Definition uuid_uuid4 : M uuid :=
  λ w, (Returned (uuid4 env (uuids_drawn w)),
        with_uuids_drawn (S (uuids_drawn w)) w).

(** [httpx.Client().post / .get]: the request goes out (it is appended to
    [sent]) and the environment answers it. *)
Definition httpx_send (req : Request) : M Response :=
  λ w, let w' := with_sent (sent w ++ [req]) w in
       match http env (length (sent w)) with
       | Answered r => (Returned r, w')
       | TransportError cls msg => (Raised (Exn cls msg), w')
       end.

(** [response.json()] *)
Definition response_json (r : Response) : M json :=
  match content r with
  | Some j => ret j
  | None => raise (Exn "JSONDecodeError" "Expecting value: line 1 column 1 (char 0)")
  end.

(** [result.get(key, dflt)]: only a dict has [get]. *)
Definition py_get (result : json) (key : string) (dflt : json) : M json :=
  match result with
  | JDict kvs => ret (default dflt (dict_lookup key kvs))
  | _ => raise (Exn "AttributeError"
                    ("'" +:+ type_name result +:+ "' object has no attribute 'get'"))
  end.

(** *** The ORM calls the core makes *)

Definition does_not_exist (model : string) : exn :=
  Exn "DoesNotExist" (model +:+ " matching query does not exist.").

(** [Model.objects.get(id=pk)] *)
Definition ResearchProject_get (pk : uuid) : M ResearchProject.t :=
  λ w, match table_get ResearchProject.id pk (research_projects w) with
       | Some p => (Returned p, w)
       | None => (Raised (does_not_exist "ResearchProject"), w)
       end.

Definition AIAnalysisTask_get (pk : uuid) : M AIAnalysisTask.t :=
  λ w, match table_get AIAnalysisTask.id pk (ai_analysis_tasks w) with
       | Some t => (Returned t, w)
       | None => (Raised (does_not_exist "AIAnalysisTask"), w)
       end.

Definition ResearchPaper_get (pk : uuid) : M ResearchPaper.t :=
  λ w, match table_get ResearchPaper.id pk (research_papers w) with
       | Some p => (Returned p, w)
       | None => (Raised (does_not_exist "ResearchPaper"), w)
       end.

(** [task.save()]: [updated_at] has [auto_now=True]. *)
Definition AIAnalysisTask_save (task : AIAnalysisTask.t) : M unit :=
  n <- timezone_now ;;
  λ w, (Returned tt,
        with_tasks (table_save AIAnalysisTask.id
                      (AIAnalysisTask.set_updated_at n task)
                      (ai_analysis_tasks w)) w).

(** [paper.save()]: the write may fail, as the environment decides. *)
Definition ResearchPaper_save (paper : ResearchPaper.t) : M unit :=
  n <- timezone_now ;;
  λ w, let w' := with_paper_writes (S (paper_writes w)) w in
       match paper_write_error env (paper_writes w) with
       | Some (cls, msg) => (Raised (Exn cls msg), w')
       | None =>
           (Returned tt,
            with_papers (table_save ResearchPaper.id
                           (ResearchPaper.set_updated_at n paper)
                           (research_papers w)) w')
       end.

Definition ServiceIntegration_save (service : ServiceIntegration.t) : M unit :=
  n <- timezone_now ;;
  λ w, (Returned tt,
        with_services (table_save ServiceIntegration.id
                         (ServiceIntegration.set_updated_at n service)
                         (service_integrations w)) w).

(** The model's [default='queued']. *)
Definition default_status : task_status := queued.

(** [AIAnalysisTask.objects.create(...)]: a fresh [uuid4] key, the model's
    defaults for what is not passed, [created_at] and [updated_at] read
    from the clock. *)
Definition AIAnalysisTask_create (project : uuid) (requested_by : option user)
    (task_type : task_kind) (parameters : json) (status : task_status)
    : M AIAnalysisTask.t :=
  pk <- uuid_uuid4 ;;
  created <- timezone_now ;;
  updated <- timezone_now ;;
  let task :=
    {| AIAnalysisTask.id := pk;
       AIAnalysisTask.project := project;
       AIAnalysisTask.requested_by := requested_by;
       AIAnalysisTask.task_type := task_type;
       AIAnalysisTask.parameters := parameters;
       AIAnalysisTask.papers := [];
       AIAnalysisTask.status := status;
       AIAnalysisTask.results := JDict [];
       AIAnalysisTask.error_message := "";
       AIAnalysisTask.fastapi_task_id := JStr "";
       AIAnalysisTask.agent_used := JStr "";
       AIAnalysisTask.created_at := created;
       AIAnalysisTask.updated_at := updated;
       AIAnalysisTask.completed_at := None |} in
  λ w, match table_get AIAnalysisTask.id pk (ai_analysis_tasks w) with
       | Some _ => (Raised (Exn "IntegrityError" "duplicate key"), w)
       | None => (Returned task, with_tasks (ai_analysis_tasks w ++ [task]) w)
       end.

(** [task.papers.add(paper)]: the relation is written at once, without a
    [save()]; the instance at hand is returned with the relation it now
    has. *)
Definition AIAnalysisTask_papers_add (task : AIAnalysisTask.t) (paper : uuid)
    : M AIAnalysisTask.t :=
  let task' :=
    if bool_decide (paper ∈ AIAnalysisTask.papers task) then task
    else AIAnalysisTask.set_papers (AIAnalysisTask.papers task ++ [paper]) task in
  λ w, (Returned task',
        with_tasks (table_save AIAnalysisTask.id task' (ai_analysis_tasks w)) w).

(** *** [core/tasks.py] *)

(** What a bound Celery task sees of itself. *)
Record CeleryTask := {
  request_retries : nat;
  max_retries : nat;
}.

(** Celery's [Task.retry(countdown=..., exc=...)]: past the cap it raises
    [exc] itself, otherwise it schedules the next run and raises [Retry]. *)
Definition Task_retry {A} (self : CeleryTask) (countdown : Z) (exc : exn) : M A :=
  if (max_retries self <? S (request_retries self))%nat
  then raise exc
  else raise (Retry countdown exc).

Definition service_error (r : Response) : exn :=
  Exn "Exception" ("FastAPI service error: " +:+ pretty (status_code r)).

Definition analyze_paper_request (task_id paper_id : uuid)
    (paper : ResearchPaper.t) : Request :=
  {| method := POST;
     url := FASTAPI_SERVICE_URL env +:+ "/api/agents/analyze-paper";
     payload :=
       JDict [("task_id", JStr task_id);
              ("paper_id", JStr paper_id);
              ("paper_data",
               JDict [("title", JStr (ResearchPaper.title paper));
                      ("abstract", JStr (ResearchPaper.abstract paper));
                      ("authors", ResearchPaper.authors paper);
                      ("doi", JStr (ResearchPaper.doi paper))])];
     timeout := 30 |}.

Definition dict_items (j : json) : list (string * json) :=
  match j with
  | JDict kvs => kvs
  | _ => []
  end.

(** [if key in result: setter(result[key])] *)
Definition assign_if_present {A} (result : json) (key : string)
    (setter : json → A → A) (x : A) : A :=
  match dict_lookup key (dict_items result) with
  | Some v => setter v x
  | None => x
  end.

(** Lines 52-58: the result fields projected onto the paper. *)
Definition project_onto_paper (result : json) (paper : ResearchPaper.t)
    : ResearchPaper.t :=
  ResearchPaper.set_processing_status PS_completed
    (assign_if_present result "relevance_score" ResearchPaper.set_relevance_score
       (assign_if_present result "research_areas" ResearchPaper.set_research_areas
          (assign_if_present result "keywords" ResearchPaper.set_keywords paper))).

(** The [try] block of [analyze_paper_task], lines 19-64. *)
Definition analyze_paper_try (task_id paper_id : uuid) : M json :=
  task <- AIAnalysisTask_get task_id ;;
  paper <- ResearchPaper_get paper_id ;;
  response <- httpx_send (analyze_paper_request task_id paper_id paper) ;;
  if status_code response =? 200 then
    result <- response_json response ;;
    analysis <- py_get result "analysis" (JDict []) ;;
    agent <- py_get result "agent_used" (JStr "unknown") ;;
    AIAnalysisTask_save
      (AIAnalysisTask.set_agent_used agent
         (AIAnalysisTask.set_status completed
            (AIAnalysisTask.set_results analysis task))) ;;
    ResearchPaper_save (project_onto_paper result paper) ;;
    ret result
  else raise (service_error response).

(** The [except Exception as exc] block, lines 66-84: the task is fetched
    again and marked failed (an error there is swallowed), then the run
    is retried or the exception re-raised. *)
Definition analyze_paper_except (self : CeleryTask) (task_id : uuid)
    (exc : exn) : M json :=
  try_except
    (task <- AIAnalysisTask_get task_id ;;
     AIAnalysisTask_save
       (AIAnalysisTask.set_error_message (str exc)
          (AIAnalysisTask.set_status failed task)))
    (λ _, ret tt) ;;
  if (request_retries self <? max_retries self)%nat
  then Task_retry self 60 exc
  else raise exc.

Definition analyze_paper_task (self : CeleryTask) (task_id paper_id : uuid)
    : M json :=
  try_except (analyze_paper_try task_id paper_id)
             (analyze_paper_except self task_id).

(** [@shared_task(bind=True, max_retries=3)] *)
Definition analyze_paper_task_max_retries : nat := 3.

(** The Celery worker: a run that raises [Retry] is run again with
    [request.retries] one higher; anything else ends the task.  [fuel]
    bounds the number of runs. *)
Fixpoint celery_worker (fuel retries : nat) (task_id paper_id : uuid)
    (w : World) : option (outcome json * World) :=
  match fuel with
  | O => None
  | S fuel' =>
      match analyze_paper_task
              {| request_retries := retries;
                 max_retries := analyze_paper_task_max_retries |}
              task_id paper_id w with
      | (Raised (Retry _ _), w') =>
          celery_worker fuel' (S retries) task_id paper_id w'
      | r => Some r
      end
  end.

(** [analyze_paper_task.delay(task_id, paper_id)] run to its end: the
    first run and at most [max_retries] more
    (see [celery_worker_total]). *)
Definition analyze_paper_task_delay (task_id paper_id : uuid) (w : World)
    : option (outcome json * World) :=
  celery_worker (S analyze_paper_task_max_retries) 0 task_id paper_id w.

(** The papers of a project, [project.papers]. *)
Definition project_papers (project_id : uuid) (w : World) : list ResearchPaper.t :=
  List.filter (λ p, String.eqb (ResearchPaper.project p) project_id)
              (research_papers w).

(** The POST of [generate_literature_review_task], lines 106-117.  The rows
    of [project.papers.values('id', ...)] carry the key as a [UUID] object,
    which [json.dumps] refuses: with a paper in the project the call raises
    before anything is sent. *)
Definition review_post (project_id : uuid) (parameters : json) : M Response :=
  λ w, match project_papers project_id w with
       | [] =>
           httpx_send
             {| method := POST;
                url := FASTAPI_SERVICE_URL env +:+ "/api/agents/generate-review";
                payload := JDict [("project_id", JStr project_id);
                                  ("parameters", parameters);
                                  ("papers", JList [])];
                timeout := 300 |} w
       | _ :: _ =>
           (Raised (Exn "TypeError" "Object of type UUID is not JSON serializable"), w)
       end.

(** Lines 95-103: the project is fetched and the task row created. *)
Definition review_create (project_id : uuid) (parameters : json)
    : M AIAnalysisTask.t :=
  project <- ResearchProject_get project_id ;;
  AIAnalysisTask_create (ResearchProject.id project) None literature_review
                        parameters processing.

(** Lines 105-128, with the local [task] bound. *)
Definition review_submit (project_id : uuid) (parameters : json)
    (task : AIAnalysisTask.t) : M json :=
  response <- review_post project_id parameters ;;
  if status_code response =? 200 then
    result <- response_json response ;;
    AIAnalysisTask_save
      (AIAnalysisTask.set_status completed
         (AIAnalysisTask.set_results result task)) ;;
    ret result
  else raise (service_error response).

(** The [except] block, lines 130-135.  It uses the local [task]: when the
    exception came before [task] was bound, naming it raises. *)
Definition review_except (task : option AIAnalysisTask.t) (exc : exn) : M json :=
  match task with
  | None =>
      raise (Exn "UnboundLocalError"
                 "cannot access local variable 'task' where it is not associated with a value")
  | Some task =>
      AIAnalysisTask_save
        (AIAnalysisTask.set_error_message (str exc)
           (AIAnalysisTask.set_status failed task)) ;;
      raise exc
  end.

Definition generate_literature_review_task (project_id : uuid)
    (parameters : json) : M json :=
  λ w, match review_create project_id parameters w with
       | (Raised exc, w') => review_except None exc w'
       | (Returned task, w') =>
           try_except (review_submit project_id parameters task)
                      (review_except (Some task)) w'
       end.

(** The health sweep, lines 138-169. *)
Definition health_request (service : ServiceIntegration.t) : Request :=
  {| method := GET;
     url := ServiceIntegration.service_url service +:+ "/health";
     payload := JNull;
     timeout := 10 |}.

Definition mark_checked (healthy : bool) (service : ServiceIntegration.t)
    : M ServiceIntegration.t :=
  n <- timezone_now ;;
  ret (ServiceIntegration.set_last_health_check (Some n)
         (ServiceIntegration.set_is_healthy healthy service)).

(** The body of the [for] loop: the [try]/[except] around the request,
    then [service.save()]. *)
Definition check_service (service : ServiceIntegration.t) : M unit :=
  checked <- try_except
               (response <- httpx_send (health_request service) ;;
                mark_checked (status_code response =? 200) service)
               (λ _, mark_checked false service) ;;
  ServiceIntegration_save checked.

Definition health_check_services : M unit :=
  λ w, for_each (List.filter ServiceIntegration.is_active (service_integrations w))
                check_service w.

(** *** [core/services.py] *)

(** [response.raise_for_status()] *)
Definition raise_for_status (r : Response) : M unit :=
  if (200 <=? status_code r) && (status_code r <=? 299)
  then ret tt
  else raise (Exn "HTTPStatusError" ("status " +:+ pretty (status_code r))).

(** The body of [FastAPIService.analyze_paper]; its [except] clauses log
    and re-raise. *)
Definition FastAPIService_analyze_paper (task_id paper_id : uuid) : M json :=
  response <- httpx_send
                {| method := POST;
                   url := FASTAPI_SERVICE_URL env +:+ "/api/agents/analyze-paper";
                   payload := JDict [("task_id", JStr task_id);
                                     ("paper_id", JStr paper_id)];
                   timeout := 30 |} ;;
  raise_for_status response ;;
  data <- response_json response ;;
  py_get data "task_id" JNull.

(** The body of [FastAPIService.cancel_task]. *)
Definition FastAPIService_cancel_task (fastapi_task_id : json) : M json :=
  response <- httpx_send
                {| method := POST;
                   url := FASTAPI_SERVICE_URL env +:+ "/api/agents/cancel-task";
                   payload := JDict [("task_id", fastapi_task_id)];
                   timeout := 30 |} ;;
  raise_for_status response ;;
  ret (JBool true).

(** What a call of a client method does for the view that makes it.  The
    methods are declared [async def] and the views call them as plain
    functions: run by an event loop a call executes the body
    ([FastAPIService_awaited]); called the way the views are written it
    builds a coroutine object and the body does not run
    ([FastAPIService_unawaited]).  The views are embedded over any
    client. *)
Record FastAPIService := {
  analyze_paper : uuid → uuid → M json;
  cancel_task : json → M json;
}.

Definition FastAPIService_awaited : FastAPIService :=
  {| analyze_paper := FastAPIService_analyze_paper;
     cancel_task := FastAPIService_cancel_task |}.

Definition FastAPIService_unawaited : FastAPIService :=
  {| analyze_paper := λ _ _, ret (JStr "<coroutine object FastAPIService.analyze_paper>");
     cancel_task := λ _, ret (JStr "<coroutine object FastAPIService.cancel_task>") |}.

(** *** [core/views.py] *)

(** A [rest_framework.response.Response]. *)
Record ApiResponse := {
  api_status : Z;
  api_data : json;
}.

Definition http404 : exn := Exn "Http404" "Not found.".

(** [ResearchPaperViewSet.get_object()]: the paper with this key among the
    papers of the user's projects (keys are unique: it is the row with
    the key, if the user's). *)
Definition owned_paper (request_user : user) (w : World) (p : ResearchPaper.t) : bool :=
  match table_get ResearchProject.id (ResearchPaper.project p) (research_projects w) with
  | Some project => String.eqb (ResearchProject.owner project) request_user
  | None => false
  end.

Definition ResearchPaperViewSet_get_object (request_user : user) (pk : uuid)
    : M ResearchPaper.t :=
  λ w, match table_get ResearchPaper.id pk (research_papers w) with
       | Some p =>
           if owned_paper request_user w p
           then (Returned p, w)
           else (Raised http404, w)
       | None => (Raised http404, w)
       end.

(** Lines 70-77 of [analyze]: the task row is created (with the model's
    default status) and linked to the paper. *)
Definition analyze_create (request_user : user) (request_data : json)
    (paper : ResearchPaper.t) : M AIAnalysisTask.t :=
  parameters <- py_get request_data "parameters" (JDict []) ;;
  task <- AIAnalysisTask_create (ResearchPaper.project paper) (Some request_user)
                                paper_analysis parameters default_status ;;
  AIAnalysisTask_papers_add task (ResearchPaper.id paper).

(** Lines 79-102 of [analyze]: the [try]/[except] around the client call. *)
Definition analyze_send (svc : FastAPIService) (task : AIAnalysisTask.t)
    (paper : ResearchPaper.t) : M ApiResponse :=
  try_except
    (task_id <- analyze_paper svc (AIAnalysisTask.id task) (ResearchPaper.id paper) ;;
     AIAnalysisTask_save
       (AIAnalysisTask.set_status processing
          (AIAnalysisTask.set_fastapi_task_id task_id task)) ;;
     ret {| api_status := 200;
            api_data := JDict [("message", JStr "Analysis started");
                               ("task_id", JStr (AIAnalysisTask.id task))] |})
    (λ e,
     AIAnalysisTask_save
       (AIAnalysisTask.set_error_message (str e)
          (AIAnalysisTask.set_status failed task)) ;;
     ret {| api_status := 500;
            api_data := JDict [("error", JStr "Failed to start analysis")] |}).

Definition ResearchPaperViewSet_analyze (svc : FastAPIService)
    (request_user : user) (request_data : json) (pk : uuid) : M ApiResponse :=
  paper <- ResearchPaperViewSet_get_object request_user pk ;;
  task <- analyze_create request_user request_data paper ;;
  analyze_send svc task paper.

(** [AIAnalysisTaskViewSet.get_object()]: the task with this key among the
    tasks the user requested (the row with the key, if the user's). *)
Definition AIAnalysisTaskViewSet_get_object (request_user : user) (pk : uuid)
    : M AIAnalysisTask.t :=
  λ w, match table_get AIAnalysisTask.id pk (ai_analysis_tasks w) with
       | Some task =>
           if bool_decide (AIAnalysisTask.requested_by task = Some request_user)
           then (Returned task, w)
           else (Raised http404, w)
       | None => (Raised http404, w)
       end.

(** [task.status in ['queued', 'processing']] *)
Definition cancellable (s : task_status) : bool :=
  match s with
  | queued | processing => true
  | completed | failed => false
  end.

Definition AIAnalysisTaskViewSet_cancel (svc : FastAPIService)
    (request_user : user) (pk : uuid) : M ApiResponse :=
  task <- AIAnalysisTaskViewSet_get_object request_user pk ;;
  if cancellable (AIAnalysisTask.status task) then
    try_except
      (cancel_task svc (AIAnalysisTask.fastapi_task_id task) ;;
       AIAnalysisTask_save
         (AIAnalysisTask.set_error_message "Cancelled by user"
            (AIAnalysisTask.set_status failed task)) ;;
       ret {| api_status := 200;
              api_data := JDict [("message", JStr "Task cancelled")] |})
      (λ _,
       ret {| api_status := 500;
              api_data := JDict [("error", JStr "Failed to cancel task")] |})
  else
    ret {| api_status := 400;
           api_data := JDict [("error", JStr "Cannot cancel task in current state")] |}.
End Core.

(** ** Reading the world *)

Definition task_of (w : World) (pk : uuid) : option AIAnalysisTask.t :=
  table_get AIAnalysisTask.id pk (ai_analysis_tasks w).

Definition paper_of (w : World) (pk : uuid) : option ResearchPaper.t :=
  table_get ResearchPaper.id pk (research_papers w).

Definition service_of (w : World) (pk : nat) : option ServiceIntegration.t :=
  table_get ServiceIntegration.id pk (service_integrations w).

Definition status_of (w : World) (pk : uuid) : option task_status :=
  AIAnalysisTask.status <$> task_of w pk.

(** The number of requests an operation issued, from [w] to [w']. *)
Definition calls_made (w w' : World) : nat :=
  (length (sent w') - length (sent w))%nat.

(** The record the [except] block writes, and the one the success path
    writes. *)
Definition marked_failed (exc : exn) (task : AIAnalysisTask.t) : AIAnalysisTask.t :=
  AIAnalysisTask.set_error_message (str exc)
    (AIAnalysisTask.set_status failed task).

Definition marked_completed (analysis agent : json) (task : AIAnalysisTask.t)
    : AIAnalysisTask.t :=
  AIAnalysisTask.set_agent_used agent
    (AIAnalysisTask.set_status completed
       (AIAnalysisTask.set_results analysis task)).

(** What a failed run raises: [Retry] while retries are left, the exception
    itself after the last one. *)
Definition raised_by_failed_run (self : CeleryTask) (exc : exn) : exn :=
  if (request_retries self <? max_retries self)%nat then Retry 60 exc else exc.

(** An exception of the code or the environment, as opposed to [Retry]. *)
Definition plain (e : exn) : bool :=
  match e with
  | Exn _ _ => true
  | Retry _ _ => false
  end.


(** ** The health sweep, record by record *)

(** Whether an answer to the health request counts as healthy. *)
Definition healthy_answer (o : http_outcome) : bool :=
  match o with
  | Answered r => status_code r =? 200
  | TransportError _ _ => false
  end.

(** The record the sweep stores for [service] when its request is the
    [request_index]-th of the world and its first clock reading the
    [clock_index]-th: the check reads the clock once, [save()] once more
    for [updated_at]. *)
Definition checked (env : Env) (request_index clock_index : nat)
    (service : ServiceIntegration.t) : ServiceIntegration.t :=
  ServiceIntegration.set_updated_at (now env (S clock_index))
    (ServiceIntegration.set_last_health_check (Some (now env clock_index))
       (ServiceIntegration.set_is_healthy
          (healthy_answer (http env request_index)) service)).

(** The fields of a service record other than [is_healthy],
    [last_health_check] and [updated_at]. *)
Definition frame (s : ServiceIntegration.t)
    : nat * string * string * bool * string * nat * nat * Z :=
  (ServiceIntegration.id s, ServiceIntegration.service_name s,
   ServiceIntegration.service_url s, ServiceIntegration.is_active s,
   ServiceIntegration.api_key s, ServiceIntegration.total_requests s,
   ServiceIntegration.failed_requests s, ServiceIntegration.created_at s).

Definition unique_services (w : World) : Prop :=
  NoDup (map ServiceIntegration.id (service_integrations w)).

(** A statement that leaves the service table as it finds it. *)
Definition keeps_services {A} (m : M A) : Prop :=
  ∀ w, service_integrations (m w).2 = service_integrations w.

(** The fields of a service record other than the two health fields: what
    stays if only [is_healthy] and [last_health_check] are written. *)
Definition all_but_health (s : ServiceIntegration.t)
    : nat * string * string * bool * string * nat * nat * Z * Z :=
  (frame s, ServiceIntegration.updated_at s).

(** ** The operations of the core, as one type *)

Definition client (env : Env) (awaited : bool) : FastAPIService :=
  if awaited then FastAPIService_awaited env else FastAPIService_unawaited.

Inductive operation :=
| RunAnalyzePaper (self : CeleryTask) (task_id paper_id : uuid)
| RunLiteratureReview (project_id : uuid) (parameters : json)
| RunHealthCheck
| ViewAnalyze (awaited : bool) (request_user : user) (request_data : json) (pk : uuid)
| ViewCancel (awaited : bool) (request_user : user) (pk : uuid).

(** The world an operation leaves, whether it returns or raises. *)
Definition perform (env : Env) (o : operation) (w : World) : World :=
  match o with
  | RunAnalyzePaper self task_id paper_id =>
      (analyze_paper_task env self task_id paper_id w).2
  | RunLiteratureReview project_id parameters =>
      (generate_literature_review_task env project_id parameters w).2
  | RunHealthCheck => (health_check_services env w).2
  | ViewAnalyze awaited request_user request_data pk =>
      (ResearchPaperViewSet_analyze env (client env awaited)
         request_user request_data pk w).2
  | ViewCancel awaited request_user pk =>
      (AIAnalysisTaskViewSet_cancel env (client env awaited) request_user pk w).2
  end.

Definition perform_all (env : Env) (ops : list operation) (w : World) : World :=
  fold_left (λ w o, perform env o w) ops w.

(** ** The cancel view *)




(** ** A small world to run the code on *)

Definition demo_project : ResearchProject.t :=
  {| ResearchProject.id := "project-1";
     ResearchProject.owner := "alice";
     ResearchProject.title := "Survey" |}.

Definition demo_paper : ResearchPaper.t :=
  {| ResearchPaper.id := "paper-1";
     ResearchPaper.project := "project-1";
     ResearchPaper.title := "On retries";
     ResearchPaper.authors := JList [JStr "A. Author"];
     ResearchPaper.abstract := "";
     ResearchPaper.doi := "";
     ResearchPaper.research_areas := JList [];
     ResearchPaper.keywords := JList [];
     ResearchPaper.relevance_score := JNull;
     ResearchPaper.processing_status := PS_pending;
     ResearchPaper.created_at := 0;
     ResearchPaper.updated_at := 0 |}.

(** The task as [analyze] creates it, in the given status. *)
Definition demo_task (s : task_status) : AIAnalysisTask.t :=
  {| AIAnalysisTask.id := "task-1";
     AIAnalysisTask.project := "project-1";
     AIAnalysisTask.requested_by := Some "alice";
     AIAnalysisTask.task_type := paper_analysis;
     AIAnalysisTask.parameters := JDict [];
     AIAnalysisTask.papers := ["paper-1"];
     AIAnalysisTask.status := s;
     AIAnalysisTask.results := JDict [];
     AIAnalysisTask.error_message := "";
     AIAnalysisTask.fastapi_task_id := JStr "";
     AIAnalysisTask.agent_used := JStr "";
     AIAnalysisTask.created_at := 0;
     AIAnalysisTask.updated_at := 0;
     AIAnalysisTask.completed_at := None |}.

Definition demo_service (pk : nat) (name : string) (active : bool)
    : ServiceIntegration.t :=
  {| ServiceIntegration.id := pk;
     ServiceIntegration.service_name := name;
     ServiceIntegration.service_url := "http://" +:+ name;
     ServiceIntegration.is_active := active;
     ServiceIntegration.api_key := "";
     ServiceIntegration.last_health_check := None;
     ServiceIntegration.is_healthy := true;
     ServiceIntegration.total_requests := 0;
     ServiceIntegration.failed_requests := 0;
     ServiceIntegration.created_at := 0;
     ServiceIntegration.updated_at := 0 |}.

Definition demo_world (s : task_status) : World :=
  {| research_projects := [demo_project];
     research_papers := [demo_paper];
     ai_analysis_tasks := [demo_task s];
     service_integrations :=
       [demo_service 1 "fastapi" true; demo_service 2 "agents" true;
        demo_service 3 "search" true; demo_service 4 "archive" false;
        demo_service 5 "metrics" true];
     sent := [];
     clock_reads := 0;
     paper_writes := 0;
     uuids_drawn := 0 |}.

(** The world of [demo_world] without a paper in the project. *)
Definition demo_world_no_paper : World := with_papers [] (demo_world queued).

Definition answer (code : Z) (body : option json) : http_outcome :=
  Answered {| status_code := code; content := body |}.

(** An environment that answers the k-th request with the k-th element of
    [answers] and with [otherwise] after them, whose clock reads
    1000, 1001, ..., and whose first paper write fails if [paper_fault]
    says so. *)
Definition demo_env (answers : list http_outcome) (otherwise : http_outcome)
    (paper_fault : option (string * string)) : Env :=
  {| FASTAPI_SERVICE_URL := "http://localhost:8001";
     http := λ k, nth k answers otherwise;
     now := λ k, 1000 + Z.of_nat k;
     uuid4 := λ k, "uuid-" +:+ pretty k;
     paper_write_error := λ k, match k with O => paper_fault | S _ => None end |}.

Definition first_run : CeleryTask :=
  {| request_retries := 0; max_retries := analyze_paper_task_max_retries |}.

(** The run after the last retry. *)
Definition last_run : CeleryTask :=
  {| request_retries := analyze_paper_task_max_retries;
     max_retries := analyze_paper_task_max_retries |}.

Definition unavailable : http_outcome := answer 503 None.

(** A 200 answer of the analyze-paper endpoint. *)
Definition analysed : list (string * json) :=
  [("task_id", JStr "task-1");
   ("analysis", JDict [("summary", JStr "a survey of retry policies")]);
   ("agent_used", JStr "paper-agent");
   ("keywords", JList [JStr "x"]);
   ("relevance_score", JFloat 8 (-1))].

(** ** The rest of [core/services.py], [core/models.py] and [core/views.py] *)

Definition set_completed_at (v : option Z) (x : AIAnalysisTask.t) : AIAnalysisTask.t :=
  {| AIAnalysisTask.id := AIAnalysisTask.id x;
     AIAnalysisTask.project := AIAnalysisTask.project x;
     AIAnalysisTask.requested_by := AIAnalysisTask.requested_by x;
     AIAnalysisTask.task_type := AIAnalysisTask.task_type x;
     AIAnalysisTask.parameters := AIAnalysisTask.parameters x;
     AIAnalysisTask.papers := AIAnalysisTask.papers x;
     AIAnalysisTask.status := AIAnalysisTask.status x;
     AIAnalysisTask.results := AIAnalysisTask.results x;
     AIAnalysisTask.error_message := AIAnalysisTask.error_message x;
     AIAnalysisTask.fastapi_task_id := AIAnalysisTask.fastapi_task_id x;
     AIAnalysisTask.agent_used := AIAnalysisTask.agent_used x;
     AIAnalysisTask.created_at := AIAnalysisTask.created_at x;
     AIAnalysisTask.updated_at := AIAnalysisTask.updated_at x;
     AIAnalysisTask.completed_at := v |}.

(** An [AIAgentService] instance: [__init__] sets [base_url] from the
    setting [AI_AGENT_SERVICE_URL]. *)
Record AIAgentService := {
  base_url : string;
}.

Definition AIAgentService_init (AI_AGENT_SERVICE_URL : string) : AIAgentService :=
  {| base_url := AI_AGENT_SERVICE_URL |}.

(** The dictionary [analytics] answers with; a row of [recent_papers] is
    [(title, created_at, processing_status)]. *)
Record Analytics := {
  paper_count : nat;
  task_count : nat;
  completed_tasks : nat;
  recent_papers : list (string * Z * paper_status);
}.

(** [order_by('-created_at')]: a paper comes before the papers created no
    later than it. *)
Definition newest_first (p q : ResearchPaper.t) : Prop :=
  ResearchPaper.created_at q ≤ ResearchPaper.created_at p.

#[global] Instance newest_first_dec p q : Decision (newest_first p q) :=
  Z_le_dec (ResearchPaper.created_at q) (ResearchPaper.created_at p).

Section Rest.
Context (env : Env).

(** The body of [FastAPIService.health_check], lines 53-63. *)
Definition FastAPIService_health_check : M bool :=
  try_except
    (response <- httpx_send env
                   {| method := GET;
                      url := FASTAPI_SERVICE_URL env +:+ "/health";
                      payload := JNull;
                      timeout := 5 |} ;;
     ret (status_code response =? 200))
    (λ _, ret false).

(** The body of [AIAgentService.get_agent_status], lines 72-84; [None] is
    [JNull]. *)
Definition AIAgentService_get_agent_status (self : AIAgentService) : M json :=
  try_except
    (response <- httpx_send env
                   {| method := GET;
                      url := base_url self +:+ "/status";
                      payload := JNull;
                      timeout := 10 |} ;;
     raise_for_status response ;;
     response_json response)
    (λ _, ret JNull).

(** [AIAnalysisTask.mark_completed], lines 173-177.  [save] with
    [update_fields] is an UPDATE of these two columns of the stored row
    (the other columns, [updated_at] among them, keep what is stored) and
    raises when no row has the key.  The instance, with the two
    attributes set, is returned. *)
Definition AIAnalysisTask_mark_completed (task : AIAnalysisTask.t)
    : M AIAnalysisTask.t :=
  n <- timezone_now env ;;
  let mark := λ t, set_completed_at (Some n) (AIAnalysisTask.set_status completed t) in
  λ w, if existsb (has_pk AIAnalysisTask.id (AIAnalysisTask.id task))
                  (ai_analysis_tasks w)
       then (Returned (mark task),
             with_tasks
               (map (λ row, if has_pk AIAnalysisTask.id (AIAnalysisTask.id task) row
                            then mark row else row)
                    (ai_analysis_tasks w)) w)
       else (Raised (Exn "DatabaseError"
                         "Save with update_fields did not affect any rows."), w).

(** [ResearchProjectViewSet.get_object()]: the project with this key among
    the projects the user owns. *)
Definition ResearchProjectViewSet_get_object (request_user : user) (pk : uuid)
    : M ResearchProject.t :=
  λ w, match table_get ResearchProject.id pk (research_projects w) with
       | Some project =>
           if String.eqb (ResearchProject.owner project) request_user
           then (Returned project, w)
           else (Raised http404, w)
       | None => (Raised http404, w)
       end.

(** The tasks of a project, [project.ai_tasks]. *)
Definition project_tasks (project_id : uuid) (w : World) : list AIAnalysisTask.t :=
  List.filter (λ t, String.eqb (AIAnalysisTask.project t) project_id)
              (ai_analysis_tasks w).

Definition is_completed (t : AIAnalysisTask.t) : bool :=
  match AIAnalysisTask.status t with
  | completed => true
  | _ => false
  end.

(** [project.papers.order_by('-created_at')[:5].values('title',
    'created_at', 'processing_status')]; papers created at the same time
    come in the order the sort leaves them, which the database does not
    fix. *)
Definition recent_papers_of (project_id : uuid) (w : World)
    : list (string * Z * paper_status) :=
  (λ p, (ResearchPaper.title p, ResearchPaper.created_at p,
         ResearchPaper.processing_status p))
    <$> take 5 (merge_sort newest_first (project_papers project_id w)).

(** [ResearchProjectViewSet.analytics], lines 35-49. *)
Definition ResearchProjectViewSet_analytics (request_user : user) (pk : uuid)
    : M Analytics :=
  project <- ResearchProjectViewSet_get_object request_user pk ;;
  λ w, (Returned
          {| paper_count := length (project_papers (ResearchProject.id project) w);
             task_count := length (project_tasks (ResearchProject.id project) w);
             completed_tasks :=
               length (List.filter is_completed
                         (project_tasks (ResearchProject.id project) w));
             recent_papers := recent_papers_of (ResearchProject.id project) w |},
        w).
End Rest.

(** What reading a 200 answer raises when its body is not a JSON object:
    [response.json()] fails on a body that is not JSON, [result.get] on a
    document that is not a dict. *)
Definition body_error (body : option json) : option exn :=
  match body with
  | None => Some (Exn "JSONDecodeError" "Expecting value: line 1 column 1 (char 0)")
  | Some (JDict _) => None
  | Some j => Some (Exn "AttributeError"
                        ("'" +:+ type_name j +:+ "' object has no attribute 'get'"))
  end.

(** The columns of a task that no run of [analyze_paper_task] writes. *)
Definition task_frame (t : AIAnalysisTask.t)
    : uuid * uuid * option user * task_kind * json * list uuid * json * Z * option Z :=
  (AIAnalysisTask.id t, AIAnalysisTask.project t, AIAnalysisTask.requested_by t,
   AIAnalysisTask.task_type t, AIAnalysisTask.parameters t, AIAnalysisTask.papers t,
   AIAnalysisTask.fastapi_task_id t, AIAnalysisTask.created_at t,
   AIAnalysisTask.completed_at t).

(** From [w] to [w'] every task row is still there with the columns of
    [task_frame] as they were, and every row but the one of [task_id] is
    as it was. *)
Definition keeps_task_frames (task_id : uuid) (w w' : World) : Prop :=
  ∀ pk t,
    task_of w pk = Some t →
    ∃ t',
      task_of w' pk = Some t'
      ∧ task_frame t' = task_frame t
      ∧ (pk ≠ task_id → t' = t).

(** Unfolds the statements of a run down to the matches on the world. *)
Ltac py_unfold :=
  unfold analyze_paper_task, analyze_paper_try, analyze_paper_except,
    AIAnalysisTask_get, ResearchPaper_get, httpx_send, response_json, py_get,
    AIAnalysisTask_save, ResearchPaper_save, Task_retry, service_error,
    does_not_exist;
  unfold timezone_now;
  unfold bind, try_except, raise, ret.

(** Splits on every match of the goal and the hypotheses. *)
Ltac py_cases := repeat (case_match; simplify_eq/=; try done).

(** ** Facts about tables *)

Section TableFacts.
Context {A K : Type} `{EqDecision K} (key : A → K).

Lemma table_get_key k rows row :
  table_get key k rows = Some row → key row = k.
Proof.
  unfold table_get. intros Hfind.
  apply List.find_some in Hfind as [_ Hk].
  unfold has_pk in Hk. by apply bool_decide_eq_true in Hk.
Qed.

Lemma table_get_In k rows row :
  table_get key k rows = Some row → In row rows.
Proof.
  unfold table_get. intros Hfind. by apply List.find_some in Hfind as [? _].
Qed.

Lemma table_get_replace row rows :
  existsb (has_pk key (key row)) rows = true →
  table_get key (key row)
    (map (λ r, if has_pk key (key row) r then row else r) rows) = Some row.
Proof.
  unfold table_get. induction rows as [|r rows IH]; simpl; [done|].
  destruct (has_pk key (key row) r) eqn:Hr; simpl.
  - intros _. unfold has_pk at 1. by rewrite bool_decide_eq_true_2.
  - intros Hex. rewrite Hr. by apply IH.
Qed.

Lemma table_get_append_fresh k row rows :
  existsb (has_pk key k) rows = false →
  table_get key k (rows ++ [row]) = table_get key k [row].
Proof.
  unfold table_get. induction rows as [|r rows IH]; simpl; [done|].
  destruct (has_pk key k r); simpl; [done|]. apply IH.
Qed.

(** A saved row is the row a later [get] with its key returns. *)
Lemma table_get_save row rows :
  table_get key (key row) (table_save key row rows) = Some row.
Proof.
  unfold table_save.
  destruct (existsb (has_pk key (key row)) rows) eqn:Hex.
  - by apply table_get_replace.
  - rewrite table_get_append_fresh by done.
    unfold table_get, has_pk. simpl. by rewrite bool_decide_eq_true_2.
Qed.

(** Saving a row leaves the rows with another key as they were. *)
Lemma table_get_save_ne k row rows :
  key row ≠ k →
  table_get key k (table_save key row rows) = table_get key k rows.
Proof.
  intros Hne. unfold table_save.
  assert (Hrow : has_pk key k row = false)
    by (unfold has_pk; by apply bool_decide_eq_false_2).
  destruct (existsb (has_pk key (key row)) rows) eqn:Hex.
  - clear Hex. unfold table_get.
    induction rows as [|r rows IH]; simpl; [done|].
    destruct (has_pk key (key row) r) eqn:Hr.
    + rewrite Hrow.
      assert (has_pk key k r = false) as ->; [|done].
      unfold has_pk in *. apply bool_decide_eq_true in Hr.
      apply bool_decide_eq_false_2. congruence.
    + destruct (has_pk key k r); [done|apply IH].
  - clear Hex. unfold table_get.
    induction rows as [|r rows IH]; simpl; [by rewrite Hrow|].
    destruct (has_pk key k r); [done|apply IH].
Qed.

End TableFacts.

(** ** One run of [analyze_paper_task] *)

Section RunFacts.
Context (env : Env).

Lemma task_of_saved task w :
  task_of (AIAnalysisTask_save env task w).2 (AIAnalysisTask.id task)
  = Some (AIAnalysisTask.set_updated_at (now env (clock_reads w)) task).
Proof.
  unfold task_of, AIAnalysisTask_save, bind, timezone_now. simpl.
  apply (table_get_save AIAnalysisTask.id
           (AIAnalysisTask.set_updated_at (now env (clock_reads w)) task)).
Qed.

(** The [try] block when the service answers anything but 200. *)
Lemma analyze_paper_try_not_200 task_id paper_id w task paper r :
  task_of w task_id = Some task →
  paper_of w paper_id = Some paper →
  http env (length (sent w)) = Answered r →
  status_code r ≠ 200 →
  analyze_paper_try env task_id paper_id w
  = (Raised (service_error r),
     with_sent (sent w ++ [analyze_paper_request env task_id paper_id paper]) w).
Proof.
  intros Ht Hp Hhttp Hcode.
  unfold analyze_paper_try, bind, AIAnalysisTask_get, ResearchPaper_get, httpx_send.
  unfold task_of in Ht. unfold paper_of in Hp. rewrite Ht, Hp. simpl.
  rewrite Hhttp.
  destruct (Z.eqb_spec (status_code r) 200) as [?|_]; [done|].
  reflexivity.
Qed.

(** The [try] block on a 200 answer carrying a JSON object: the task is
    saved as completed, then the paper is saved; the block returns or
    raises as that second write does. *)
Lemma analyze_paper_try_200 task_id paper_id w task paper kvs :
  task_of w task_id = Some task →
  paper_of w paper_id = Some paper →
  http env (length (sent w))
  = Answered {| status_code := 200; content := Some (JDict kvs) |} →
  let result := JDict kvs in
  let saved :=
    (AIAnalysisTask_save env
       (marked_completed (default (JDict []) (dict_lookup "analysis" kvs))
                         (default (JStr "unknown") (dict_lookup "agent_used" kvs))
                         task)
       (with_sent (sent w ++ [analyze_paper_request env task_id paper_id paper]) w)).2 in
  analyze_paper_try env task_id paper_id w
  = match ResearchPaper_save env (project_onto_paper result paper) saved with
    | (Returned _, w') => (Returned result, w')
    | (Raised e, w') => (Raised e, w')
    end.
Proof.
  intros Ht Hp Hhttp.
  unfold analyze_paper_try, bind, AIAnalysisTask_get, ResearchPaper_get, httpx_send.
  unfold task_of in Ht. unfold paper_of in Hp. rewrite Ht, Hp. simpl.
  rewrite Hhttp. unfold ResearchPaper_save, bind, timezone_now. simpl.
  by destruct (paper_write_error env (paper_writes w)) as [[??]|].
Qed.

(** The [except] block when the task row is there. *)
Lemma analyze_paper_except_found self task_id exc w task :
  task_of w task_id = Some task →
  analyze_paper_except env self task_id exc w
  = (Raised (raised_by_failed_run self exc),
     (AIAnalysisTask_save env (marked_failed exc task) w).2).
Proof.
  intros Ht.
  unfold analyze_paper_except, bind, try_except, AIAnalysisTask_get.
  unfold task_of in Ht. rewrite Ht. simpl.
  unfold raised_by_failed_run, Task_retry, raise.
  destruct (Nat.ltb_spec (request_retries self) (max_retries self)); [|done].
  destruct (Nat.ltb_spec (max_retries self) (S (request_retries self))); [lia|done].
Qed.

(** Nothing in the [try] block raises [Retry]. *)
Lemma analyze_paper_try_plain task_id paper_id w e w' :
  analyze_paper_try env task_id paper_id w = (Raised e, w') → plain e = true.
Proof.
  unfold analyze_paper_try. py_unfold. intros Hrun. py_cases.
Qed.

(** The [except] block sends nothing and raises. *)
Lemma analyze_paper_except_sent self task_id exc w :
  sent (analyze_paper_except env self task_id exc w).2 = sent w.
Proof.
  py_unfold. py_cases.
Qed.

Lemma analyze_paper_except_raises self task_id exc w :
  plain exc = true →
  ∃ e, (analyze_paper_except env self task_id exc w).1 = Raised e
       ∧ (plain e = false → (request_retries self < max_retries self)%nat).
Proof.
  intros Hplain.
  py_unfold. py_cases;
    eexists; (split; [reflexivity|]); simpl; intros; try congruence;
    by apply Nat.ltb_lt.
Qed.

(** A run asks for a retry only while retries are left. *)
Lemma analyze_paper_task_retry self task_id paper_id w countdown exc w' :
  analyze_paper_task env self task_id paper_id w = (Raised (Retry countdown exc), w') →
  (request_retries self < max_retries self)%nat.
Proof.
  unfold analyze_paper_task, try_except.
  destruct (analyze_paper_try env task_id paper_id w) as [[a|e] w1] eqn:Htry; [done|].
  apply analyze_paper_try_plain in Htry.
  destruct (analyze_paper_except_raises self task_id e w1 Htry) as (e' & He' & Hlt).
  intros Hrun. rewrite Hrun in He'. simpl in He'. simplify_eq. by apply Hlt.
Qed.

(** The [try] block sends at most one request. *)
Lemma analyze_paper_try_sent_le task_id paper_id w :
  (length (sent w) ≤ length (sent (analyze_paper_try env task_id paper_id w).2))%nat.
Proof.
  py_unfold. py_cases; rewrite ?length_app; simpl; lia.
Qed.

(** With the task and the paper in the tables, the [try] block sends
    exactly one request, whatever is answered. *)
Lemma analyze_paper_try_sent task_id paper_id w task paper :
  task_of w task_id = Some task →
  paper_of w paper_id = Some paper →
  sent (analyze_paper_try env task_id paper_id w).2
  = (sent w ++ [analyze_paper_request env task_id paper_id paper])%list.
Proof.
  intros Ht Hp. unfold task_of in Ht. unfold paper_of in Hp.
  py_unfold. rewrite Ht, Hp. py_cases.
Qed.

Lemma analyze_paper_task_sent_le self task_id paper_id w :
  (length (sent w)
   ≤ length (sent (analyze_paper_task env self task_id paper_id w).2))%nat.
Proof.
  unfold analyze_paper_task, try_except.
  pose proof (analyze_paper_try_sent_le task_id paper_id w) as Hle.
  destruct (analyze_paper_try env task_id paper_id w) as [[a|e] w1]; [done|].
  by rewrite analyze_paper_except_sent.
Qed.

Lemma analyze_paper_task_sent self task_id paper_id w task paper :
  task_of w task_id = Some task →
  paper_of w paper_id = Some paper →
  sent (analyze_paper_task env self task_id paper_id w).2
  = (sent w ++ [analyze_paper_request env task_id paper_id paper])%list.
Proof.
  intros Ht Hp. unfold analyze_paper_task, try_except.
  pose proof (analyze_paper_try_sent task_id paper_id w task paper Ht Hp) as Hs.
  destruct (analyze_paper_try env task_id paper_id w) as [[a|e] w1]; [done|].
  by rewrite analyze_paper_except_sent.
Qed.

(** *** The worker *)

(** The worker ends: [max_retries - retries + 1] runs are enough. *)
Lemma celery_worker_total fuel retries task_id paper_id w :
  (analyze_paper_task_max_retries ≤ retries + fuel)%nat →
  is_Some (celery_worker env (S fuel) retries task_id paper_id w).
Proof.
  revert retries w. induction fuel as [|fuel IH]; intros retries w Hfuel.
  - simpl.
    destruct (analyze_paper_task env _ task_id paper_id w)
      as [[a|[cls msg|c e]] w1] eqn:Hrun; [done|done|].
    apply analyze_paper_task_retry in Hrun. simpl in Hrun. lia.
  - cbn [celery_worker].
    destruct (analyze_paper_task env _ task_id paper_id w)
      as [[a|[cls msg|c e]] w1] eqn:Hrun; [done|done|].
    apply IH. lia.
Qed.

(** Requests are only ever added. *)
Lemma celery_worker_sent_le fuel retries task_id paper_id w r w' :
  celery_worker env fuel retries task_id paper_id w = Some (r, w') →
  (length (sent w) ≤ length (sent w'))%nat.
Proof.
  revert retries w. induction fuel as [|fuel IH]; intros retries w; [done|].
  simpl.
  pose proof (analyze_paper_task_sent_le
                {| request_retries := retries;
                   max_retries := analyze_paper_task_max_retries |}
                task_id paper_id w) as Hle.
  destruct (analyze_paper_task env _ task_id paper_id w) as [[a|[cls msg|c e]] w1];
    simpl in Hle; intros Hrun; simplify_eq; try done.
  apply IH in Hrun. lia.
Qed.

(** *** A whole run, by what the service answers *)

(** Answered with anything but 200: the task is saved as failed with the
    status code in its message, nothing else is written, and the run asks
    for a retry or re-raises. *)
Lemma analyze_paper_task_not_200 self task_id paper_id w task paper r :
  task_of w task_id = Some task →
  paper_of w paper_id = Some paper →
  http env (length (sent w)) = Answered r →
  status_code r ≠ 200 →
  ∃ w',
    analyze_paper_task env self task_id paper_id w
    = (Raised (raised_by_failed_run self (service_error r)), w')
    ∧ task_of w' task_id
      = Some (AIAnalysisTask.set_updated_at (now env (clock_reads w))
                (marked_failed (service_error r) task))
    ∧ research_papers w' = research_papers w
    ∧ sent w' = (sent w ++ [analyze_paper_request env task_id paper_id paper])%list.
Proof.
  intros Ht Hp Hhttp Hcode. eexists. split.
  - unfold analyze_paper_task, try_except.
    rewrite (analyze_paper_try_not_200 _ _ _ _ _ _ Ht Hp Hhttp Hcode).
    by apply analyze_paper_except_found.
  - split; [|done].
    pose proof (table_get_key _ _ _ _ Ht) as Hid. subst task_id.
    exact (task_of_saved (marked_failed (service_error r) task) _).
Qed.

(** Answered 200 with a JSON object, and the paper is written: the task
    is saved as completed with the [analysis] entry (or [{}]) as its
    results, and the run returns the answer. *)
Lemma analyze_paper_task_200 self task_id paper_id w task paper kvs :
  task_of w task_id = Some task →
  paper_of w paper_id = Some paper →
  http env (length (sent w))
  = Answered {| status_code := 200; content := Some (JDict kvs) |} →
  paper_write_error env (paper_writes w) = None →
  ∃ w',
    analyze_paper_task env self task_id paper_id w = (Returned (JDict kvs), w')
    ∧ task_of w' task_id
      = Some (AIAnalysisTask.set_updated_at (now env (clock_reads w))
                (marked_completed
                   (default (JDict []) (dict_lookup "analysis" kvs))
                   (default (JStr "unknown") (dict_lookup "agent_used" kvs))
                   task))
    ∧ sent w' = (sent w ++ [analyze_paper_request env task_id paper_id paper])%list.
Proof.
  intros Ht Hp Hhttp Hwrite.
  pose proof (table_get_key _ _ _ _ Ht) as Hid.
  unfold analyze_paper_task, try_except.
  rewrite (analyze_paper_try_200 _ _ _ _ _ _ Ht Hp Hhttp). cbv zeta.
  unfold ResearchPaper_save at 1. unfold bind, timezone_now.
  cbn [paper_writes AIAnalysisTask_save bind timezone_now snd with_tasks
       with_clock_reads with_sent with_paper_writes].
  rewrite Hwrite. eexists. split; [reflexivity|]. split; [|done].
  subst task_id.
  exact (table_get_save AIAnalysisTask.id
           (AIAnalysisTask.set_updated_at (now env (clock_reads w))
              (marked_completed _ _ task)) _).
Qed.

(** Answered 200 with a JSON object, but the write to the paper fails:
    the task, already saved as completed, is fetched again by the
    [except] block and saved as failed. *)
Lemma analyze_paper_task_projection_failed self task_id paper_id w task paper
    kvs cls msg :
  task_of w task_id = Some task →
  paper_of w paper_id = Some paper →
  http env (length (sent w))
  = Answered {| status_code := 200; content := Some (JDict kvs) |} →
  paper_write_error env (paper_writes w) = Some (cls, msg) →
  ∃ w',
    analyze_paper_task env self task_id paper_id w
    = (Raised (raised_by_failed_run self (Exn cls msg)), w')
    ∧ task_of w' task_id
      = Some (AIAnalysisTask.set_updated_at (now env (S (S (clock_reads w))))
                (marked_failed (Exn cls msg)
                   (AIAnalysisTask.set_updated_at (now env (clock_reads w))
                      (marked_completed
                         (default (JDict []) (dict_lookup "analysis" kvs))
                         (default (JStr "unknown") (dict_lookup "agent_used" kvs))
                         task)))).
Proof.
  intros Ht Hp Hhttp Hwrite.
  pose proof (table_get_key _ _ _ _ Ht) as Hid.
  unfold analyze_paper_task, try_except.
  rewrite (analyze_paper_try_200 _ _ _ _ _ _ Ht Hp Hhttp). cbv zeta.
  unfold ResearchPaper_save at 1. unfold bind, timezone_now.
  cbn [paper_writes AIAnalysisTask_save bind timezone_now snd with_tasks
       with_clock_reads with_sent with_paper_writes].
  rewrite Hwrite.
  match goal with |- context [analyze_paper_except env self task_id ?exc ?w1] =>
    assert (Hsaved : task_of w1 task_id
                     = Some (AIAnalysisTask.set_updated_at (now env (clock_reads w))
                               (marked_completed
                                  (default (JDict []) (dict_lookup "analysis" kvs))
                                  (default (JStr "unknown") (dict_lookup "agent_used" kvs))
                                  task)))
  end.
  { rewrite <- Hid.
    exact (table_get_save AIAnalysisTask.id
             (AIAnalysisTask.set_updated_at (now env (clock_reads w))
                (marked_completed _ _ task)) _). }
  eexists. split; [by apply analyze_paper_except_found|].
  rewrite <- Hid.
  exact (task_of_saved
           (marked_failed (Exn cls msg)
              (AIAnalysisTask.set_updated_at (now env (clock_reads w))
                 (marked_completed _ _ task))) _).
Qed.
End RunFacts.

(** ** The code on the small world *)

(** A paper analysis answered 200: the task is completed with the analysis
    as results, and the keywords and the relevance score are on the
    paper. *)
Example analysis_lands_on_task_and_paper :
  let env := demo_env [] (answer 200 (Some (JDict analysed))) None in
  let w' := (analyze_paper_task env first_run "task-1" "paper-1" (demo_world queued)).2 in
  ((λ t, (AIAnalysisTask.status t, AIAnalysisTask.results t, AIAnalysisTask.agent_used t))
     <$> task_of w' "task-1")
  = Some (completed, JDict [("summary", JStr "a survey of retry policies")],
          JStr "paper-agent")
  ∧ ((λ p, (ResearchPaper.keywords p, ResearchPaper.relevance_score p,
            ResearchPaper.processing_status p)) <$> paper_of w' "paper-1")
    = Some (JList [JStr "x"], JFloat 8 (-1), PS_completed).
Proof. by vm_compute. Qed.

(** A literature review of a project without papers, answered 200: one
    request with an empty list of papers, and the task is completed. *)
Example review_of_empty_project_completes :
  let env := demo_env [] (answer 200 (Some (JDict [("review", JStr "none")]))) None in
  let w' := (generate_literature_review_task env "project-1" (JDict [])
               demo_world_no_paper).2 in
  (AIAnalysisTask.status <$> task_of w' "uuid-0") = Some completed
  ∧ payload <$> sent w'
    = [JDict [("project_id", JStr "project-1"); ("parameters", JDict []);
              ("papers", JList [])]].
Proof. by vm_compute. Qed.

(** With a paper in the project the payload cannot be encoded: nothing is
    sent and the task is failed. *)
Example review_with_papers_is_not_sent :
  let env := demo_env [] (answer 200 (Some (JDict []))) None in
  let w' := (generate_literature_review_task env "project-1" (JDict [])
               (demo_world queued)).2 in
  ((λ t, (AIAnalysisTask.status t, AIAnalysisTask.error_message t))
     <$> task_of w' "uuid-0")
  = Some (failed, "Object of type UUID is not JSON serializable")
  ∧ sent w' = [].
Proof. by vm_compute. Qed.

(** A review of a project that does not exist: the [except] block names
    the local [task] before it is bound. *)
Example review_of_missing_project :
  (generate_literature_review_task (demo_env [] unavailable None) "project-9"
     (JDict []) (demo_world queued)).1
  = Raised (Exn "UnboundLocalError"
              "cannot access local variable 'task' where it is not associated with a value").
Proof. by vm_compute. Qed.

(** Cancel of a completed task: answered 400, nothing sent or written. *)
Example cancel_of_completed_is_refused :
  let env := demo_env [] (answer 200 None) None in
  AIAnalysisTaskViewSet_cancel env (FastAPIService_awaited env) "alice" "task-1"
    (demo_world completed)
  = (Returned {| api_status := 400;
                 api_data := JDict [("error", JStr "Cannot cancel task in current state")] |},
     demo_world completed).
Proof. by vm_compute. Qed.

(** Cancel of a queued task when the client call returns: the task is
    failed with the message of the view. *)
Example cancel_of_queued :
  let env := demo_env [] (answer 200 None) None in
  let w' := (AIAnalysisTaskViewSet_cancel env (FastAPIService_awaited env)
               "alice" "task-1" (demo_world queued)).2 in
  ((λ t, (AIAnalysisTask.status t, AIAnalysisTask.error_message t))
     <$> task_of w' "task-1")
  = Some (failed, "Cancelled by user").
Proof. by vm_compute. Qed.

(** The worker stops after the first run that does not ask for a retry. *)
Example worker_stops_on_success :
  let env := demo_env [unavailable; unavailable] (answer 200 (Some (JDict analysed))) None in
  (λ r, (r.1, length (sent r.2)))
    <$> analyze_paper_task_delay env "task-1" "paper-1" (demo_world queued)
  = Some (Returned (JDict analysed), 3%nat).
Proof. by vm_compute. Qed.

(** ** Terminal states, retries and results *)





(** When every request is answered with the same status code other than
    200, the worker makes one run per retry left and one more, each
    sending one request, and ends with the task failed. *)
Lemma celery_worker_every_answer_failing env code task_id paper_id paper :
  code ≠ 200 →
  (∀ k, ∃ body, http env k = answer code body) →
  ∀ n retries w task,
    (retries + n = analyze_paper_task_max_retries)%nat →
    task_of w task_id = Some task →
    paper_of w paper_id = Some paper →
    ∃ w' task',
      celery_worker env (S n) retries task_id paper_id w
      = Some (Raised (Exn "Exception" ("FastAPI service error: " +:+ pretty code)), w')
      ∧ task_of w' task_id = Some task'
      ∧ AIAnalysisTask.status task' = failed
      ∧ AIAnalysisTask.error_message task' = "FastAPI service error: " +:+ pretty code
      ∧ length (sent w') = (length (sent w) + S n)%nat.
Proof.
  intros Hcode Hall n.
  induction n as [|n IH]; intros retries w task Hretries Ht Hp.
  - destruct (Hall (length (sent w))) as [body Hhttp].
    destruct (analyze_paper_task_not_200 env
                {| request_retries := retries;
                   max_retries := analyze_paper_task_max_retries |}
                _ _ _ _ _ _ Ht Hp Hhttp Hcode) as (w' & Hrun & Htask & _ & Hsent).
    unfold raised_by_failed_run in Hrun. cbn [request_retries max_retries] in Hrun.
    destruct (Nat.ltb_spec retries analyze_paper_task_max_retries); [lia|].
    exists w'. eexists. cbn [celery_worker]. rewrite Hrun.
    split; [reflexivity|]. split; [exact Htask|].
    rewrite Hsent, length_app. simpl. by repeat split.
  - destruct (Hall (length (sent w))) as [body Hhttp].
    destruct (analyze_paper_task_not_200 env
                {| request_retries := retries;
                   max_retries := analyze_paper_task_max_retries |}
                _ _ _ _ _ _ Ht Hp Hhttp Hcode) as (w1 & Hrun & Htask & Hpapers & Hsent).
    unfold raised_by_failed_run in Hrun. cbn [request_retries max_retries] in Hrun.
    destruct (Nat.ltb_spec retries analyze_paper_task_max_retries); [|lia].
    assert (Hp1 : paper_of w1 paper_id = Some paper)
      by (unfold paper_of in *; by rewrite Hpapers).
    destruct (IH (S retries) w1 _ ltac:(lia) Htask Hp1)
      as (w' & task' & Hrest & Htask' & Hstatus & Hmsg & Hlen).
    exists w', task'. cbn [celery_worker]. rewrite Hrun.
    split; [exact Hrest|]. repeat (split; [done|]).
    rewrite Hlen, Hsent, length_app. simpl. lia.
Qed.

(** C2, as amended.  When every submit is answered 503, the task ends
    failed with the error message "FastAPI service error: 503", after
    exactly 4 requests: the first run and [max_retries = 3] retries. *)
Theorem unavailable_service_four_calls env task_id paper_id w task paper :
  task_of w task_id = Some task →
  paper_of w paper_id = Some paper →
  (∀ k, ∃ body, http env k = answer 503 body) →
  ∃ w' task',
    analyze_paper_task_delay env task_id paper_id w
    = Some (Raised (Exn "Exception" "FastAPI service error: 503"), w')
    ∧ task_of w' task_id = Some task'
    ∧ AIAnalysisTask.status task' = failed
    ∧ AIAnalysisTask.error_message task' = "FastAPI service error: 503"
    ∧ calls_made w w' = 4%nat.
Proof.
  intros Ht Hp Hall.
  destruct (celery_worker_every_answer_failing env 503 task_id paper_id paper
              ltac:(done) Hall 3%nat 0%nat w task eq_refl Ht Hp)
    as (w' & task' & Hrun & Htask & Hstatus & Hmsg & Hlen).
  exists w', task'. unfold analyze_paper_task_delay, calls_made.
  repeat (split; [done|]). lia.
Qed.

Lemma unavailable_service_four_calls_witness :
  ∃ w' task',
    analyze_paper_task_delay (demo_env [] unavailable None) "task-1" "paper-1"
      (demo_world queued)
    = Some (Raised (Exn "Exception" "FastAPI service error: 503"), w')
    ∧ task_of w' "task-1" = Some task'
    ∧ AIAnalysisTask.status task' = failed
    ∧ AIAnalysisTask.error_message task' = "FastAPI service error: 503"
    ∧ calls_made (demo_world queued) w' = 4%nat.
Proof.
  apply (unavailable_service_four_calls (demo_env [] unavailable None)
           "task-1" "paper-1" (demo_world queued) (demo_task queued) demo_paper).
  - reflexivity.
  - reflexivity.
  - intros k. exists None. simpl. by destruct k.
Defined.

(** C2, as stated, fails: with 503 for every answer the worker sends 4
    requests, not 3. *)
Lemma unavailable_service_not_three_calls :
  ¬ (∀ env task_id paper_id w task paper,
       task_of w task_id = Some task →
       paper_of w paper_id = Some paper →
       (∀ k, ∃ body, http env k = answer 503 body) →
       ∃ r w',
         analyze_paper_task_delay env task_id paper_id w = Some (r, w')
         ∧ status_of w' task_id = Some failed
         ∧ calls_made w w' = 3%nat).
Proof.
  intros Hclaim.
  destruct (Hclaim (demo_env [] unavailable None) "task-1" "paper-1"
              (demo_world queued) (demo_task queued) demo_paper
              eq_refl eq_refl)
    as (r & w' & Hrun & _ & Hcalls).
  - intros k. exists None. simpl. by destruct k.
  - vm_compute in Hrun. injection Hrun as _ <-. vm_compute in Hcalls. discriminate.
Qed.

(** A worker that starts with the task and the paper in the tables sends
    at least one request. *)
Lemma celery_worker_sends env fuel retries task_id paper_id w task paper r w' :
  task_of w task_id = Some task →
  paper_of w paper_id = Some paper →
  celery_worker env fuel retries task_id paper_id w = Some (r, w') →
  (S (length (sent w)) ≤ length (sent w'))%nat.
Proof.
  intros Ht Hp. destruct fuel as [|fuel]; [done|]. cbn [celery_worker].
  pose proof (analyze_paper_task_sent env
                {| request_retries := retries;
                   max_retries := analyze_paper_task_max_retries |}
                task_id paper_id w task paper Ht Hp) as Hsent.
  destruct (analyze_paper_task env _ task_id paper_id w) as [[a|[cls msg|c e]] w1];
    simpl in Hsent; intros Hrun; simplify_eq;
    try (rewrite Hsent, length_app; simpl; lia).
  apply celery_worker_sent_le in Hrun.
  rewrite Hsent, length_app in Hrun. simpl in Hrun. lia.
Qed.

(** C3, as amended.  A first run that is answered with a 4xx status code
    is handled as any other failure: the task is set to failed, the run
    asks for a retry in 60 seconds, and the worker sends a second
    request. *)
Theorem rejected_submit_is_retried env task_id paper_id w task paper r :
  task_of w task_id = Some task →
  paper_of w paper_id = Some paper →
  http env (length (sent w)) = Answered r →
  400 ≤ status_code r < 500 →
  ∃ w1,
    analyze_paper_task env first_run task_id paper_id w
    = (Raised (Retry 60 (service_error r)), w1)
    ∧ status_of w1 task_id = Some failed
    ∧ calls_made w w1 = 1%nat
    ∧ ∃ o w',
        analyze_paper_task_delay env task_id paper_id w = Some (o, w')
        ∧ (2 ≤ calls_made w w')%nat.
Proof.
  intros Ht Hp Hhttp Hcode.
  destruct (analyze_paper_task_not_200 env first_run _ _ _ _ _ _ Ht Hp Hhttp
              ltac:(lia)) as (w1 & Hrun & Htask & Hpapers & Hsent).
  exists w1. split; [exact Hrun|]. split.
  { unfold status_of. by rewrite Htask. }
  split.
  { unfold calls_made. rewrite Hsent, length_app. simpl. lia. }
  assert (Hp1 : paper_of w1 paper_id = Some paper)
    by (unfold paper_of in *; by rewrite Hpapers).
  unfold analyze_paper_task_delay. cbn [celery_worker]. fold first_run.
  rewrite Hrun. cbn [raised_by_failed_run].
  destruct (celery_worker_total env 2 1 task_id paper_id w1 ltac:(done))
    as [[o w'] Hrest].
  exists o, w'. split; [exact Hrest|].
  pose proof (celery_worker_sends env _ _ _ _ _ _ _ _ _ Htask Hp1 Hrest) as Hle.
  unfold calls_made. rewrite Hsent, length_app in Hle. simpl in Hle. lia.
Qed.

Lemma rejected_submit_is_retried_witness :
  let env := demo_env [] (answer 400 None) None in
  ∃ w1,
    analyze_paper_task env first_run "task-1" "paper-1" (demo_world queued)
    = (Raised (Retry 60 (service_error {| status_code := 400; content := None |})), w1)
    ∧ status_of w1 "task-1" = Some failed
    ∧ calls_made (demo_world queued) w1 = 1%nat
    ∧ ∃ o w',
        analyze_paper_task_delay env "task-1" "paper-1" (demo_world queued)
        = Some (o, w')
        ∧ (2 ≤ calls_made (demo_world queued) w')%nat.
Proof.
  intros env.
  apply (rejected_submit_is_retried env "task-1" "paper-1" (demo_world queued)
           (demo_task queued) demo_paper {| status_code := 400; content := None |}).
  - reflexivity.
  - reflexivity.
  - reflexivity.
  - simpl. lia.
Defined.

(** C3, as stated, fails: a first run answered 400 is followed by further
    requests (here 4 in all, every answer being 400). *)
Lemma rejected_submit_second_call :
  ¬ (∀ env task_id paper_id w task paper r,
       task_of w task_id = Some task →
       paper_of w paper_id = Some paper →
       http env (length (sent w)) = Answered r →
       400 ≤ status_code r < 500 →
       ∃ o w',
         analyze_paper_task_delay env task_id paper_id w = Some (o, w')
         ∧ calls_made w w' = 1%nat).
Proof.
  intros Hclaim.
  destruct (Hclaim (demo_env [] (answer 400 None) None) "task-1" "paper-1"
              (demo_world queued) (demo_task queued) demo_paper
              {| status_code := 400; content := None |}
              eq_refl eq_refl eq_refl ltac:(simpl; lia))
    as (o & w' & Hrun & Hcalls).
  vm_compute in Hrun. injection Hrun as _ <-. vm_compute in Hcalls. discriminate.
Qed.







(** C7, as amended.  [analyze_paper_task] does not read the status of the
    task before it posts: with the task and the paper in the tables, a run
    sends exactly one request to the analyze-paper endpoint, whatever the
    status of the task is. *)
Theorem run_posts_whatever_the_status env self task_id paper_id w task paper :
  task_of w task_id = Some task →
  paper_of w paper_id = Some paper →
  sent (analyze_paper_task env self task_id paper_id w).2
  = (sent w ++ [analyze_paper_request env task_id paper_id paper])%list
  ∧ calls_made w (analyze_paper_task env self task_id paper_id w).2 = 1%nat.
Proof.
  intros Ht Hp.
  pose proof (analyze_paper_task_sent env self _ _ _ _ _ Ht Hp) as Hsent.
  split; [exact Hsent|].
  unfold calls_made. rewrite Hsent, length_app. simpl. lia.
Qed.

Lemma run_posts_whatever_the_status_witness :
  let env := demo_env [] unavailable None in
  sent (analyze_paper_task env first_run "task-1" "paper-1" (demo_world completed)).2
  = [analyze_paper_request env "task-1" "paper-1" demo_paper]
  ∧ calls_made (demo_world completed)
      (analyze_paper_task env first_run "task-1" "paper-1" (demo_world completed)).2
    = 1%nat.
Proof.
  intros env.
  exact (run_posts_whatever_the_status env first_run "task-1" "paper-1"
           (demo_world completed) (demo_task completed) demo_paper
           eq_refl eq_refl).
Defined.

(** C7, as stated, fails: run on a task that is already completed, the
    task posts to the service again (and, answered 503, sets the task to
    failed). *)
Lemma resubmit_is_not_a_noop :
  ¬ (∀ env self task_id paper_id w task,
       task_of w task_id = Some task →
       AIAnalysisTask.status task ≠ queued →
       sent (analyze_paper_task env self task_id paper_id w).2 = sent w).
Proof.
  intros Hclaim.
  specialize (Hclaim (demo_env [] unavailable None) first_run "task-1" "paper-1"
                (demo_world completed) (demo_task completed) eq_refl
                ltac:(discriminate)).
  vm_compute in Hclaim. discriminate.
Qed.

(** ** The views *)





(** A created row is the row of its key. *)
Lemma AIAnalysisTask_create_stored env project requested_by task_type parameters
    status w task w' :
  AIAnalysisTask_create env project requested_by task_type parameters status w
  = (Returned task, w') →
  AIAnalysisTask.status task = status
  ∧ AIAnalysisTask.task_type task = task_type
  ∧ AIAnalysisTask.papers task = []
  ∧ task_of w' (AIAnalysisTask.id task) = Some task
  ∧ sent w' = sent w.
Proof.
  unfold AIAnalysisTask_create, uuid_uuid4, timezone_now, bind.
  cbn [ai_analysis_tasks with_clock_reads with_uuids_drawn clock_reads uuids_drawn].
  destruct (table_get AIAnalysisTask.id (uuid4 env (uuids_drawn w))
              (ai_analysis_tasks w)) as [other|] eqn:Hfresh; [done|].
  intros [= <- <-]. repeat (split; [done|]). split; [|done].
  unfold task_of. cbn [ai_analysis_tasks with_tasks AIAnalysisTask.id].
  unfold table_get in *.
  induction (ai_analysis_tasks w) as [|row rows IH]; simpl in *.
  - unfold has_pk. simpl. by rewrite bool_decide_eq_true_2.
  - destruct (has_pk AIAnalysisTask.id (uuid4 env (uuids_drawn w)) row); [done|].
    by apply IH.
Qed.

(** C9, as amended.  The [analyze] view creates the task of a paper
    analysis in [queued] (the default of the model), before anything is
    sent.  [generate_literature_review_task] creates the task of a
    literature review in [processing], before anything is sent: that task
    is never queued. *)
Theorem created_queued_by_view_processing_by_review env :
  (∀ request_user request_data paper w task w',
     analyze_create env request_user request_data paper w = (Returned task, w') →
     AIAnalysisTask.status task = queued
     ∧ AIAnalysisTask.task_type task = paper_analysis
     ∧ task_of w' (AIAnalysisTask.id task) = Some task
     ∧ sent w' = sent w)
  ∧ (∀ project_id parameters w task w',
       review_create env project_id parameters w = (Returned task, w') →
       AIAnalysisTask.status task = processing
       ∧ AIAnalysisTask.task_type task = literature_review
       ∧ task_of w' (AIAnalysisTask.id task) = Some task
       ∧ sent w' = sent w).
Proof.
  split.
  - intros request_user request_data paper w task w'.
    unfold analyze_create, bind, py_get, ret, raise.
    destruct request_data; try done.
    destruct (AIAnalysisTask_create env _ _ _ _ _ w) as [[created|e] w1] eqn:Hcreate;
      [|done].
    apply AIAnalysisTask_create_stored in Hcreate
      as (Hstatus & Htype & Hpapers & _ & Hsent).
    unfold AIAnalysisTask_papers_add. rewrite Hpapers. simpl.
    intros [= <- <-]. simpl. repeat (split; [done|]). split; [|done].
    unfold task_of. simpl.
    exact (table_get_save AIAnalysisTask.id
             (AIAnalysisTask.set_papers [ResearchPaper.id paper] created) _).
  - intros project_id parameters w task w'.
    unfold review_create, bind, ResearchProject_get.
    destruct (table_get ResearchProject.id project_id (research_projects w));
      [|done].
    intros Hcreate.
    apply AIAnalysisTask_create_stored in Hcreate
      as (Hstatus & Htype & _ & Hstored & Hsent).
    done.
Qed.

Lemma created_queued_by_view_processing_by_review_witness :
  let env := demo_env [] unavailable None in
  (∃ task w',
     analyze_create env "alice" (JDict []) demo_paper (demo_world queued)
     = (Returned task, w')
     ∧ AIAnalysisTask.status task = queued
     ∧ AIAnalysisTask.task_type task = paper_analysis
     ∧ task_of w' (AIAnalysisTask.id task) = Some task
     ∧ sent w' = sent (demo_world queued))
  ∧ (∃ task w',
       review_create env "project-1" (JDict []) (demo_world queued)
       = (Returned task, w')
       ∧ AIAnalysisTask.status task = processing
       ∧ AIAnalysisTask.task_type task = literature_review
       ∧ task_of w' (AIAnalysisTask.id task) = Some task
       ∧ sent w' = sent (demo_world queued)).
Proof.
  intros env. split.
  - eexists _, _. split; [vm_compute; reflexivity|].
    apply (proj1 (created_queued_by_view_processing_by_review env)
             "alice" (JDict []) demo_paper (demo_world queued)).
    vm_compute. reflexivity.
  - eexists _, _. split; [vm_compute; reflexivity|].
    apply (proj2 (created_queued_by_view_processing_by_review env)
             "project-1" (JDict []) (demo_world queued)).
    vm_compute. reflexivity.
Defined.

(** C9, as stated, fails: the task of a literature review is created in
    [processing]. *)
Lemma literature_review_created_processing :
  ¬ (∀ env project_id parameters w task w',
       review_create env project_id parameters w = (Returned task, w') →
       AIAnalysisTask.status task = queued).
Proof.
  intros Hclaim.
  pose (env := demo_env [] unavailable None).
  destruct (review_create env "project-1" (JDict []) (demo_world queued))
    as [[task|e] w'] eqn:Hcreate; [|vm_compute in Hcreate; discriminate].
  pose proof (Hclaim env _ _ _ _ _ Hcreate) as Hqueued.
  vm_compute in Hcreate. injection Hcreate as <- _.
  discriminate.
Qed.

(** ** The health sweep *)

Lemma NoDup_map_filter {A B} (f : A → B) (p : A → bool) (l : list A) :
  NoDup (map f l) → NoDup (map f (List.filter p l)).
Proof.
  induction l as [|x l IH]; simpl; [done|].
  intros Hnodup. apply NoDup_cons in Hnodup as [Hx Hl].
  destruct (p x); simpl; [|by apply IH].
  apply NoDup_cons. split; [|by apply IH].
  intros Hin. apply Hx.
  apply list_elem_of_In, in_map_iff in Hin as (y & Hy & Hin).
  apply list_elem_of_In, in_map_iff. exists y. split; [done|].
  by apply filter_In in Hin as [? _].
Qed.

(** One pass of the loop body: one request, two clock readings, the
    checked record saved; the body returns whatever the request did. *)
Lemma check_service_run env service w :
  ∃ w',
    check_service env service w = (Returned tt, w')
    ∧ service_integrations w'
      = table_save ServiceIntegration.id
          (checked env (length (sent w)) (clock_reads w) service)
          (service_integrations w)
    ∧ sent w' = (sent w ++ [health_request service])%list
    ∧ clock_reads w' = S (S (clock_reads w))
    ∧ ai_analysis_tasks w' = ai_analysis_tasks w
    ∧ research_papers w' = research_papers w.
Proof.
  unfold check_service, mark_checked, ServiceIntegration_save, httpx_send,
    checked, healthy_answer.
  unfold timezone_now. unfold bind, try_except, ret.
  destruct (http env (length (sent w))) as [r|cls msg]; simpl;
    eexists; by repeat split.
Qed.

(** The loop over the services to check: every one of them is stored as
    checked, with the answer to its own request and its own clock
    readings; the loop returns. *)
Lemma sweep_loop env actives :
  ∀ w,
    NoDup (map ServiceIntegration.id actives) →
    ∃ w',
      for_each actives (check_service env) w = (Returned tt, w')
      ∧ length (sent w') = (length (sent w) + length actives)%nat
      ∧ clock_reads w' = (clock_reads w + 2 * length actives)%nat
      ∧ (∀ i service,
           actives !! i = Some service →
           service_of w' (ServiceIntegration.id service)
           = Some (checked env (length (sent w) + i) (clock_reads w + 2 * i) service))
      ∧ (∀ pk,
           pk ∉ map ServiceIntegration.id actives →
           service_of w' pk = service_of w pk).
Proof.
  induction actives as [|service rest IH]; intros w Hnodup.
  - exists w. simpl. repeat split; try lia; try done.
  - simpl in Hnodup. apply NoDup_cons in Hnodup as [Hfresh Hrest].
    destruct (check_service_run env service w)
      as (w1 & Hrun & Hservices & Hsent & Hclock & _).
    destruct (IH w1 Hrest) as (w' & Hloop & Hlen & Hreads & Hchecked & Hother).
    exists w'. cbn [for_each]. unfold bind at 1. rewrite Hrun.
    split; [exact Hloop|].
    split; [rewrite Hlen, Hsent, length_app; simpl; lia|].
    split; [rewrite Hreads, Hclock; simpl; lia|].
    split.
    + intros [|i] other Hi; simpl in Hi.
      * injection Hi as <-. rewrite (Hother _ Hfresh).
        unfold service_of. rewrite Hservices.
        rewrite !Nat.add_0_r.
        exact (table_get_save ServiceIntegration.id
                 (checked env (length (sent w)) (clock_reads w) service) _).
      * rewrite (Hchecked i other Hi).
        rewrite Hsent, length_app, Hclock.
        apply (f_equal Some), (f_equal2 (λ a b, checked env a b other));
          simpl; lia.
    + intros pk Hpk. simpl in Hpk.
      apply not_elem_of_cons in Hpk as [Hne Hpk].
      rewrite (Hother pk Hpk). unfold service_of. rewrite Hservices.
      apply (table_get_save_ne ServiceIntegration.id pk
               (checked env (length (sent w)) (clock_reads w) service)).
      simpl. congruence.
Qed.



(** ** What touches the service table *)

Create HintDb keeps discriminated.

Lemma keeps_ret {A} (a : A) : keeps_services (ret a).
Proof. done. Qed.

Lemma keeps_raise {A} (e : exn) : keeps_services (@raise A e).
Proof. done. Qed.

Lemma keeps_bind {A B} (m : M A) (k : A → M B) :
  keeps_services m → (∀ a, keeps_services (k a)) → keeps_services (bind m k).
Proof.
  intros Hm Hk w. unfold bind. specialize (Hm w).
  destruct (m w) as [[a|e] w1]; simpl in *; [|done].
  by rewrite Hk.
Qed.

Lemma keeps_try_except {A} (m : M A) (handler : exn → M A) :
  keeps_services m → (∀ e, keeps_services (handler e)) →
  keeps_services (try_except m handler).
Proof.
  intros Hm Hh w. unfold try_except. specialize (Hm w).
  destruct (m w) as [[a|e] w1]; simpl in *; [done|].
  by rewrite Hh.
Qed.

#[global] Hint Resolve keeps_ret keeps_raise : keeps.

(** Splits a statement into its parts, down to the calls. *)
Ltac keeps_step :=
  match goal with
  | |- keeps_services (bind _ _) => apply keeps_bind; [|intros ?]
  | |- keeps_services (try_except _ _) => apply keeps_try_except; [|intros ?]
  | |- keeps_services (if ?b then _ else _) => destruct b
  | |- keeps_services (match ?x with _ => _ end) => destruct x
  | |- keeps_services _ => solve [auto with keeps]
  end.

Ltac keeps := repeat keeps_step.

(** A call that only reads the world, or writes another part of it. *)
Ltac keeps_by_cases := intros w; simpl; py_cases.

Section Keeps.
Context (env : Env).

Lemma keeps_timezone_now : keeps_services (timezone_now env).
Proof. done. Qed.

Lemma keeps_uuid_uuid4 : keeps_services (uuid_uuid4 env).
Proof. done. Qed.

Lemma keeps_httpx_send req : keeps_services (httpx_send env req).
Proof. unfold httpx_send. keeps_by_cases. Qed.

Lemma keeps_response_json r : keeps_services (response_json r).
Proof. unfold response_json. keeps. Qed.

Lemma keeps_py_get result key dflt : keeps_services (py_get result key dflt).
Proof. unfold py_get. keeps. Qed.

Lemma keeps_ResearchProject_get pk : keeps_services (ResearchProject_get pk).
Proof. unfold ResearchProject_get. keeps_by_cases. Qed.

Lemma keeps_AIAnalysisTask_get pk : keeps_services (AIAnalysisTask_get pk).
Proof. unfold AIAnalysisTask_get. keeps_by_cases. Qed.

Lemma keeps_ResearchPaper_get pk : keeps_services (ResearchPaper_get pk).
Proof. unfold ResearchPaper_get. keeps_by_cases. Qed.

Lemma keeps_AIAnalysisTask_save task : keeps_services (AIAnalysisTask_save env task).
Proof. done. Qed.

Lemma keeps_ResearchPaper_save paper : keeps_services (ResearchPaper_save env paper).
Proof. unfold ResearchPaper_save, bind, timezone_now. keeps_by_cases. Qed.

Lemma keeps_AIAnalysisTask_create project requested_by task_type parameters status :
  keeps_services
    (AIAnalysisTask_create env project requested_by task_type parameters status).
Proof.
  unfold AIAnalysisTask_create, bind, timezone_now, uuid_uuid4. keeps_by_cases.
Qed.

Lemma keeps_AIAnalysisTask_papers_add task paper :
  keeps_services (AIAnalysisTask_papers_add task paper).
Proof. done. Qed.

Lemma keeps_Task_retry {A} self countdown exc :
  keeps_services (@Task_retry A self countdown exc).
Proof. unfold Task_retry. keeps. Qed.

#[local] Hint Resolve keeps_timezone_now keeps_uuid_uuid4 keeps_httpx_send
  keeps_response_json keeps_py_get keeps_ResearchProject_get
  keeps_AIAnalysisTask_get keeps_ResearchPaper_get keeps_AIAnalysisTask_save
  keeps_ResearchPaper_save keeps_AIAnalysisTask_create
  keeps_AIAnalysisTask_papers_add keeps_Task_retry : keeps.

Lemma keeps_analyze_paper_task self task_id paper_id :
  keeps_services (analyze_paper_task env self task_id paper_id).
Proof.
  unfold analyze_paper_task, analyze_paper_try, analyze_paper_except. keeps.
Qed.

Lemma keeps_review_post project_id parameters :
  keeps_services (review_post env project_id parameters).
Proof.
  intros w. unfold review_post.
  destruct (project_papers project_id w); [|done]. apply keeps_httpx_send.
Qed.

Lemma keeps_generate_literature_review_task project_id parameters :
  keeps_services (generate_literature_review_task env project_id parameters).
Proof.
  intros w. unfold generate_literature_review_task.
  assert (Hcreate : keeps_services (review_create env project_id parameters))
    by (unfold review_create; keeps).
  specialize (Hcreate w).
  destruct (review_create env project_id parameters w) as [[task|exc] w1];
    simpl in Hcreate; rewrite <- Hcreate.
  - apply keeps_try_except.
    + unfold review_submit. pose proof keeps_review_post. keeps.
    + intros e. unfold review_except. keeps.
  - unfold review_except. by apply keeps_raise.
Qed.

Lemma keeps_client awaited :
  (∀ task_id paper_id,
     keeps_services (analyze_paper (client env awaited) task_id paper_id))
  ∧ (∀ fastapi_task_id,
       keeps_services (cancel_task (client env awaited) fastapi_task_id)).
Proof.
  destruct awaited; simpl; split; intros;
    unfold FastAPIService_analyze_paper, FastAPIService_cancel_task,
      raise_for_status; keeps.
Qed.

Lemma keeps_ResearchPaperViewSet_analyze awaited request_user request_data pk :
  keeps_services
    (ResearchPaperViewSet_analyze env (client env awaited)
       request_user request_data pk).
Proof.
  destruct (keeps_client awaited) as [Hanalyze _].
  assert (Hget : keeps_services (ResearchPaperViewSet_get_object request_user pk))
    by (unfold ResearchPaperViewSet_get_object; keeps_by_cases).
  unfold ResearchPaperViewSet_analyze, analyze_create, analyze_send. keeps.
Qed.

Lemma keeps_AIAnalysisTaskViewSet_cancel awaited request_user pk :
  keeps_services
    (AIAnalysisTaskViewSet_cancel env (client env awaited) request_user pk).
Proof.
  destruct (keeps_client awaited) as [_ Hcancel].
  assert (Hget : keeps_services (AIAnalysisTaskViewSet_get_object request_user pk))
    by (unfold AIAnalysisTaskViewSet_get_object; keeps_by_cases).
  unfold AIAnalysisTaskViewSet_cancel. keeps.
Qed.
End Keeps.

(** ** The frame of the sweep *)

Lemma NoDup_map_In_inj {A B} (f : A → B) (l : list A) (a b : A) :
  NoDup (map f l) → In a l → In b l → f a = f b → a = b.
Proof.
  induction l as [|x l IH]; simpl; [done|].
  intros Hnodup Ha Hb Hf. apply NoDup_cons in Hnodup as [Hx Hl].
  destruct Ha as [->|Ha], Hb as [->|Hb]; try done.
  - exfalso. apply Hx. rewrite Hf. apply list_elem_of_In. by apply in_map.
  - exfalso. apply Hx. rewrite <- Hf. apply list_elem_of_In. by apply in_map.
  - by apply IH.
Qed.

Lemma frame_id a b : frame a = frame b → ServiceIntegration.id a = ServiceIntegration.id b.
Proof. unfold frame. by intros [= -> _]. Qed.

Lemma map_frame_id rows rows' :
  map frame rows = map frame rows' →
  map ServiceIntegration.id rows = map ServiceIntegration.id rows'.
Proof.
  intros Hframe.
  apply (f_equal (map (λ f, f.1.1.1.1.1.1.1))) in Hframe.
  by rewrite !map_map in Hframe.
Qed.

(** Saving a record that has the frame of the stored record of its key
    leaves every frame of the table as it was. *)
Lemma table_save_frame row rows :
  NoDup (map ServiceIntegration.id rows) →
  In (frame row) (map frame rows) →
  map frame (table_save ServiceIntegration.id row rows) = map frame rows.
Proof.
  intros Hnodup Hin. apply in_map_iff in Hin as (stored & Hframe & Hstored).
  pose proof (frame_id _ _ Hframe) as Hid.
  unfold table_save.
  assert (existsb (has_pk ServiceIntegration.id (ServiceIntegration.id row)) rows
          = true) as ->.
  { apply existsb_exists. exists stored. split; [done|].
    unfold has_pk. by apply bool_decide_eq_true_2. }
  rewrite map_map. apply map_ext_in. intros r Hr.
  destruct (has_pk ServiceIntegration.id (ServiceIntegration.id row) r) eqn:Hpk;
    [|done].
  unfold has_pk in Hpk. apply bool_decide_eq_true in Hpk.
  assert (r = stored) as ->; [|done].
  eapply NoDup_map_In_inj; [exact Hnodup|done|done|congruence].
Qed.

Lemma sweep_loop_frame env actives :
  ∀ w,
    unique_services w →
    (∀ s, In s actives → In (frame s) (map frame (service_integrations w))) →
    map frame (service_integrations (for_each actives (check_service env) w).2)
    = map frame (service_integrations w).
Proof.
  induction actives as [|service rest IH]; intros w Hunique Hstored; [done|].
  destruct (check_service_run env service w) as (w1 & Hrun & Hservices & _).
  cbn [for_each]. unfold bind at 1. rewrite Hrun.
  assert (Hframe : map frame (service_integrations w1)
                   = map frame (service_integrations w)).
  { rewrite Hservices. apply table_save_frame; [done|].
    apply (Hstored service). by left. }
  rewrite <- Hframe. apply IH.
  - unfold unique_services in *. by rewrite (map_frame_id _ _ Hframe).
  - intros s Hs. rewrite Hframe. apply Hstored. by right.
Qed.

Lemma health_check_services_frame env w :
  unique_services w →
  map frame (service_integrations (health_check_services env w).2)
  = map frame (service_integrations w).
Proof.
  intros Hunique. unfold health_check_services.
  apply sweep_loop_frame; [done|].
  intros s Hs. apply filter_In in Hs as [Hs _]. by apply in_map.
Qed.

(** Every operation of the core leaves the frames of the service table. *)
Lemma perform_frame env o w :
  unique_services w →
  map frame (service_integrations (perform env o w))
  = map frame (service_integrations w).
Proof.
  intros Hunique. destruct o; simpl.
  - by rewrite keeps_analyze_paper_task.
  - by rewrite keeps_generate_literature_review_task.
  - by apply health_check_services_frame.
  - by rewrite keeps_ResearchPaperViewSet_analyze.
  - by rewrite keeps_AIAnalysisTaskViewSet_cancel.
Qed.

(** C10, as amended.  Whatever operations of the core run, in whatever
    order, every service record keeps its fields other than [is_healthy],
    [last_health_check] and [updated_at] (which [save()] sets on every
    sweep): in particular [total_requests] and [failed_requests] keep the
    values they had. *)
Theorem sweep_writes_health_and_timestamp_only env ops w :
  unique_services w →
  map frame (service_integrations (perform_all env ops w))
  = map frame (service_integrations w)
  ∧ map ServiceIntegration.total_requests (service_integrations (perform_all env ops w))
    = map ServiceIntegration.total_requests (service_integrations w)
  ∧ map ServiceIntegration.failed_requests (service_integrations (perform_all env ops w))
    = map ServiceIntegration.failed_requests (service_integrations w).
Proof.
  intros Hunique.
  assert (Hframe : map frame (service_integrations (perform_all env ops w))
                   = map frame (service_integrations w)).
  { revert w Hunique. unfold perform_all.
    induction ops as [|o ops IH]; intros w Hunique; [done|].
    simpl. pose proof (perform_frame env o w Hunique) as Hstep.
    rewrite <- Hstep. apply IH.
    unfold unique_services in *. by rewrite (map_frame_id _ _ Hstep). }
  split; [exact Hframe|].
  split.
  - apply (f_equal (map (λ f, f.1.1.2))) in Hframe.
    by rewrite !map_map in Hframe.
  - apply (f_equal (map (λ f, f.1.2))) in Hframe.
    by rewrite !map_map in Hframe.
Qed.

Lemma sweep_writes_health_and_timestamp_only_witness :
  let env := demo_env [answer 200 None] unavailable None in
  let ops := [RunHealthCheck;
              RunAnalyzePaper first_run "task-1" "paper-1";
              ViewCancel true "alice" "task-1";
              RunHealthCheck] in
  map frame (service_integrations (perform_all env ops (demo_world queued)))
  = map frame (service_integrations (demo_world queued))
  ∧ map ServiceIntegration.total_requests
      (service_integrations (perform_all env ops (demo_world queued)))
    = [0; 0; 0; 0; 0]%nat
  ∧ map ServiceIntegration.failed_requests
      (service_integrations (perform_all env ops (demo_world queued)))
    = [0; 0; 0; 0; 0]%nat.
Proof.
  intros env ops.
  apply (sweep_writes_health_and_timestamp_only env ops (demo_world queued)).
  unfold unique_services. apply (bool_decide_unpack _). vm_compute. exact I.
Defined.

(** C10, as stated, fails: a sweep also writes [updated_at], which has
    [auto_now=True], of every record it saves. *)
Lemma sweep_also_writes_updated_at :
  ¬ (∀ env w,
       unique_services w →
       map all_but_health (service_integrations (health_check_services env w).2)
       = map all_but_health (service_integrations w)).
Proof.
  intros Hclaim.
  specialize (Hclaim (demo_env [] (answer 200 None) None) (demo_world queued)).
  vm_compute in Hclaim.
  assert (Hunique : NoDup [1; 2; 3; 4; 5]%nat)
    by (apply (bool_decide_unpack _); vm_compute; exact I).
  specialize (Hclaim Hunique). discriminate.
Qed.

(** ** More on the runs of [analyze_paper_task] *)

Section RunBounds.
Context (env : Env).

(** A run sends at most one request. *)
Lemma analyze_paper_task_sent_at_most_one self task_id paper_id w :
  (length (sent (analyze_paper_task env self task_id paper_id w).2)
   ≤ S (length (sent w)))%nat.
Proof.
  unfold analyze_paper_task, try_except.
  assert (Htry : (length (sent (analyze_paper_try env task_id paper_id w).2)
                  ≤ S (length (sent w)))%nat).
  { py_unfold. py_cases; rewrite ?length_app; simpl; lia. }
  destruct (analyze_paper_try env task_id paper_id w) as [[a|e] w1]; [done|].
  by rewrite analyze_paper_except_sent.
Qed.

Lemma celery_worker_sent_at_most fuel retries task_id paper_id w r w' :
  celery_worker env fuel retries task_id paper_id w = Some (r, w') →
  (length (sent w') ≤ length (sent w) + fuel)%nat.
Proof.
  revert retries w. induction fuel as [|fuel IH]; intros retries w; [done|].
  cbn [celery_worker].
  pose proof (analyze_paper_task_sent_at_most_one
                {| request_retries := retries;
                   max_retries := analyze_paper_task_max_retries |}
                task_id paper_id w) as Hone.
  destruct (analyze_paper_task env _ task_id paper_id w) as [[a|[cls msg|c e]] w1];
    simpl in Hone; intros Hrun; simplify_eq; try lia.
  apply IH in Hrun. lia.
Qed.

(** What the worker ends with is never a request for a retry. *)
Lemma celery_worker_ends fuel retries task_id paper_id w r w' :
  celery_worker env fuel retries task_id paper_id w = Some (r, w') →
  ∀ countdown exc, r ≠ Raised (Retry countdown exc).
Proof.
  revert retries w. induction fuel as [|fuel IH]; intros retries w; [done|].
  cbn [celery_worker].
  destruct (analyze_paper_task env _ task_id paper_id w) as [[a|[cls msg|c e]] w1];
    intros Hrun; simplify_eq; try done.
  by eapply IH.
Qed.
End RunBounds.

(** X1.  Whatever the service answers and whatever the tables hold, a task
    handed to the worker comes to an end after at most four requests (the
    first run and three retries), and it ends by returning or by raising
    an exception other than [Retry]. *)
Theorem worker_ends_within_four_requests env task_id paper_id w :
  ∃ o w',
    analyze_paper_task_delay env task_id paper_id w = Some (o, w')
    ∧ (calls_made w w' ≤ 4)%nat
    ∧ ∀ countdown exc, o ≠ Raised (Retry countdown exc).
Proof.
  unfold analyze_paper_task_delay.
  destruct (celery_worker_total env analyze_paper_task_max_retries 0
              task_id paper_id w ltac:(done)) as [[o w'] Hrun].
  exists o, w'. split; [exact Hrun|]. split.
  - apply celery_worker_sent_at_most in Hrun. unfold calls_made.
    unfold analyze_paper_task_max_retries in Hrun. lia.
  - by eapply celery_worker_ends.
Qed.

Section RunEdges.
Context (env : Env).

Lemma task_of_saved_ne_key task w pk :
  AIAnalysisTask.id task ≠ pk →
  task_of (AIAnalysisTask_save env task w).2 pk = task_of w pk.
Proof.
  intros Hne. unfold task_of, AIAnalysisTask_save, bind, timezone_now. simpl.
  by apply (table_get_save_ne AIAnalysisTask.id pk
              (AIAnalysisTask.set_updated_at (now env (clock_reads w)) task)).
Qed.

Lemma task_of_saved_at task pk w :
  AIAnalysisTask.id task = pk →
  task_of (AIAnalysisTask_save env task w).2 pk
  = Some (AIAnalysisTask.set_updated_at (now env (clock_reads w)) task).
Proof. intros <-. apply task_of_saved. Qed.

(** A run whose [try] block raised, with the task row still there: the
    [except] block saves the task as failed with the text of the
    exception. *)
Lemma analyze_paper_task_raised self task_id paper_id w exc w1 task1 :
  analyze_paper_try env task_id paper_id w = (Raised exc, w1) →
  task_of w1 task_id = Some task1 →
  analyze_paper_task env self task_id paper_id w
  = (Raised (raised_by_failed_run self exc),
     (AIAnalysisTask_save env (marked_failed exc task1) w1).2).
Proof.
  intros Htry Htask. unfold analyze_paper_task, try_except. rewrite Htry.
  by apply analyze_paper_except_found.
Qed.

Lemma analyze_paper_task_missing_task self task_id paper_id w :
  task_of w task_id = None →
  analyze_paper_task env self task_id paper_id w
  = (Raised (raised_by_failed_run self (does_not_exist "AIAnalysisTask")), w).
Proof.
  intros Ht. unfold task_of in Ht. unfold raised_by_failed_run.
  py_unfold. rewrite Ht. simpl. rewrite Ht. simpl.
  destruct (Nat.ltb_spec (request_retries self) (max_retries self)); [|done].
  destruct (Nat.ltb_spec (max_retries self) (S (request_retries self))); [lia|done].
Qed.

Lemma analyze_paper_try_missing_paper task_id paper_id w task :
  task_of w task_id = Some task →
  paper_of w paper_id = None →
  analyze_paper_try env task_id paper_id w
  = (Raised (does_not_exist "ResearchPaper"), w).
Proof.
  intros Ht Hp. unfold task_of in Ht. unfold paper_of in Hp.
  py_unfold. by rewrite Ht, Hp.
Qed.

Lemma analyze_paper_try_transport task_id paper_id w task paper cls msg :
  task_of w task_id = Some task →
  paper_of w paper_id = Some paper →
  http env (length (sent w)) = TransportError cls msg →
  analyze_paper_try env task_id paper_id w
  = (Raised (Exn cls msg),
     with_sent (sent w ++ [analyze_paper_request env task_id paper_id paper]) w).
Proof.
  intros Ht Hp Hhttp. unfold task_of in Ht. unfold paper_of in Hp.
  py_unfold. rewrite Ht, Hp. simpl. by rewrite Hhttp.
Qed.

Lemma analyze_paper_try_bad_body task_id paper_id w task paper body exc :
  task_of w task_id = Some task →
  paper_of w paper_id = Some paper →
  http env (length (sent w)) = answer 200 body →
  body_error body = Some exc →
  analyze_paper_try env task_id paper_id w
  = (Raised exc,
     with_sent (sent w ++ [analyze_paper_request env task_id paper_id paper]) w).
Proof.
  intros Ht Hp Hhttp Hbody. unfold task_of in Ht. unfold paper_of in Hp.
  py_unfold. rewrite Ht, Hp. simpl. rewrite Hhttp. simpl.
  destruct body as [[]|]; simplify_eq/=; done.
Qed.
End RunEdges.

(** X2.  When no task has the key, the worker sends nothing and writes
    nothing: each of the four runs fails at the first [get], the [except]
    block cannot mark a task that is not there, and the worker ends with
    [DoesNotExist], the world as it was. *)
Theorem missing_task_is_retried_to_no_effect env task_id paper_id w :
  task_of w task_id = None →
  analyze_paper_task_delay env task_id paper_id w
  = Some (Raised (does_not_exist "AIAnalysisTask"), w).
Proof.
  intros Ht. unfold analyze_paper_task_delay, analyze_paper_task_max_retries.
  cbn [celery_worker].
  rewrite !(analyze_paper_task_missing_task env _ _ _ _ Ht).
  reflexivity.
Qed.

Lemma missing_task_is_retried_to_no_effect_witness :
  analyze_paper_task_delay (demo_env [] unavailable None) "task-9" "paper-1"
    (demo_world queued)
  = Some (Raised (does_not_exist "AIAnalysisTask"), demo_world queued).
Proof.
  apply (missing_task_is_retried_to_no_effect (demo_env [] unavailable None)
           "task-9" "paper-1" (demo_world queued)).
  reflexivity.
Defined.

(** X3.  After any run on a task that is in the table, the status of the
    task tells how the run ended: [completed] if it returned, [failed] if
    it raised (a request for a retry included); a run never leaves a task
    queued or processing. *)
Theorem status_after_run_follows_outcome env self task_id paper_id w task :
  task_of w task_id = Some task →
  status_of (analyze_paper_task env self task_id paper_id w).2 task_id
  = Some (match (analyze_paper_task env self task_id paper_id w).1 with
          | Returned _ => completed
          | Raised _ => failed
          end).
Proof.
  intros Ht.
  pose proof (table_get_key _ _ _ _ Ht) as Hid.
  assert (Hraised : ∀ exc w1,
            analyze_paper_try env task_id paper_id w = (Raised exc, w1) →
            task_of w1 task_id = Some task →
            status_of (analyze_paper_task env self task_id paper_id w).2 task_id
            = Some (match (analyze_paper_task env self task_id paper_id w).1 with
                    | Returned _ => completed
                    | Raised _ => failed
                    end)).
  { intros exc w1 Htry Htask.
    rewrite (analyze_paper_task_raised env self _ _ _ _ _ _ Htry Htask).
    unfold status_of. cbn [fst snd].
    by rewrite (task_of_saved_at env (marked_failed exc task) task_id w1 Hid). }
  destruct (paper_of w paper_id) as [paper|] eqn:Hp.
  2: { eapply Hraised; [by eapply analyze_paper_try_missing_paper|done]. }
  destruct (http env (length (sent w))) as [[code body]|cls msg] eqn:Hhttp.
  2: { eapply Hraised; [by eapply analyze_paper_try_transport|done]. }
  destruct (Z.eq_dec code 200) as [->|Hcode].
  2: { destruct (analyze_paper_task_not_200 env self _ _ _ _ _ _ Ht Hp Hhttp Hcode)
         as (w' & Hrun & Htask & _).
       rewrite Hrun. unfold status_of. simpl. by rewrite Htask. }
  destruct (body_error body) as [exc|] eqn:Hbody.
  { eapply Hraised; [by eapply analyze_paper_try_bad_body|done]. }
  destruct body as [[| | | | | |kvs]|]; try done.
  destruct (paper_write_error env (paper_writes w)) as [[cls msg]|] eqn:Hwrite.
  - destruct (analyze_paper_task_projection_failed env self _ _ _ _ _ _ _ _
                Ht Hp Hhttp Hwrite) as (w' & Hrun & Htask).
    rewrite Hrun. unfold status_of. simpl. by rewrite Htask.
  - destruct (analyze_paper_task_200 env self _ _ _ _ _ _ Ht Hp Hhttp Hwrite)
      as (w' & Hrun & Htask & _).
    rewrite Hrun. unfold status_of. simpl. by rewrite Htask.
Qed.

Lemma status_after_run_follows_outcome_witness :
  status_of (analyze_paper_task
               (demo_env [] (TransportError "ReadTimeout" "") None) first_run
               "task-1" "paper-1" (demo_world processing)).2 "task-1"
  = Some failed.
Proof.
  exact (status_after_run_follows_outcome
           (demo_env [] (TransportError "ReadTimeout" "") None) first_run
           "task-1" "paper-1" (demo_world processing) (demo_task processing)
           eq_refl).
Defined.

(** What a run leaves when its [try] block raised before anything was
    written. *)
Lemma failed_run_effects env self task_id paper_id w exc w1 task :
  analyze_paper_try env task_id paper_id w = (Raised exc, w1) →
  task_of w1 task_id = Some task →
  ∃ w',
    analyze_paper_task env self task_id paper_id w
    = (Raised (raised_by_failed_run self exc), w')
    ∧ sent w' = sent w1
    ∧ research_papers w' = research_papers w1
    ∧ task_of w' task_id
      = Some (AIAnalysisTask.set_updated_at (now env (clock_reads w1))
                (marked_failed exc task)).
Proof.
  intros Htry Htask. eexists. split.
  - by apply analyze_paper_task_raised.
  - repeat (split; [done|]).
    apply task_of_saved_at. simpl. by eapply table_get_key.
Qed.

(** X4.  When the paper of a run is not in the table, nothing is sent: the
    run fails at the second [get], the task is saved as failed with the
    message of [DoesNotExist] (its results are kept), and the run asks for
    a retry or re-raises. *)
Theorem missing_paper_fails_task_without_request env self task_id paper_id w task :
  task_of w task_id = Some task →
  paper_of w paper_id = None →
  ∃ w' task',
    analyze_paper_task env self task_id paper_id w
    = (Raised (raised_by_failed_run self (does_not_exist "ResearchPaper")), w')
    ∧ sent w' = sent w
    ∧ task_of w' task_id = Some task'
    ∧ AIAnalysisTask.status task' = failed
    ∧ AIAnalysisTask.error_message task'
      = "ResearchPaper matching query does not exist."
    ∧ AIAnalysisTask.results task' = AIAnalysisTask.results task.
Proof.
  intros Ht Hp.
  destruct (failed_run_effects env self task_id paper_id w _ w task
              (analyze_paper_try_missing_paper env _ _ _ _ Ht Hp) Ht)
    as (w' & Hrun & Hsent & _ & Htask).
  exists w'. eexists. split; [exact Hrun|]. split; [exact Hsent|].
  split; [exact Htask|]. done.
Qed.

Lemma missing_paper_fails_task_without_request_witness :
  ∃ w' task',
    analyze_paper_task (demo_env [] unavailable None) last_run "task-1" "paper-9"
      (demo_world queued)
    = (Raised (does_not_exist "ResearchPaper"), w')
    ∧ sent w' = []
    ∧ task_of w' "task-1" = Some task'
    ∧ AIAnalysisTask.status task' = failed
    ∧ AIAnalysisTask.error_message task'
      = "ResearchPaper matching query does not exist."
    ∧ AIAnalysisTask.results task' = JDict [].
Proof.
  exact (missing_paper_fails_task_without_request
           (demo_env [] unavailable None) last_run "task-1" "paper-9"
           (demo_world queued) (demo_task queued) eq_refl eq_refl).
Defined.

(** X5.  When the request itself fails (connection refused, timeout), the
    run has sent its one request, the task is saved as failed with the text
    of the transport's exception as error message, empty if the exception
    has none, and the paper table is as it was. *)
Theorem transport_error_fails_task env self task_id paper_id w task paper cls msg :
  task_of w task_id = Some task →
  paper_of w paper_id = Some paper →
  http env (length (sent w)) = TransportError cls msg →
  ∃ w' task',
    analyze_paper_task env self task_id paper_id w
    = (Raised (raised_by_failed_run self (Exn cls msg)), w')
    ∧ calls_made w w' = 1%nat
    ∧ research_papers w' = research_papers w
    ∧ task_of w' task_id = Some task'
    ∧ AIAnalysisTask.status task' = failed
    ∧ AIAnalysisTask.error_message task' = msg
    ∧ AIAnalysisTask.results task' = AIAnalysisTask.results task.
Proof.
  intros Ht Hp Hhttp.
  destruct (failed_run_effects env self task_id paper_id w _ _ task
              (analyze_paper_try_transport env _ _ _ _ _ _ _ Ht Hp Hhttp) Ht)
    as (w' & Hrun & Hsent & Hpapers & Htask).
  exists w'. eexists. split; [exact Hrun|]. split.
  { unfold calls_made. rewrite Hsent. simpl. rewrite length_app. simpl. lia. }
  split; [exact Hpapers|]. split; [exact Htask|]. done.
Qed.

(** A read timeout without a message: the task is failed with an empty
    error message. *)
Lemma transport_error_fails_task_witness :
  ∃ w' task',
    analyze_paper_task (demo_env [] (TransportError "ReadTimeout" "") None)
      first_run "task-1" "paper-1" (demo_world queued)
    = (Raised (Retry 60 (Exn "ReadTimeout" "")), w')
    ∧ calls_made (demo_world queued) w' = 1%nat
    ∧ research_papers w' = [demo_paper]
    ∧ task_of w' "task-1" = Some task'
    ∧ AIAnalysisTask.status task' = failed
    ∧ AIAnalysisTask.error_message task' = ""
    ∧ AIAnalysisTask.results task' = JDict [].
Proof.
  exact (transport_error_fails_task
           (demo_env [] (TransportError "ReadTimeout" "") None) first_run
           "task-1" "paper-1" (demo_world queued) (demo_task queued) demo_paper
           "ReadTimeout" "" eq_refl eq_refl eq_refl).
Defined.

(** X6.  A 200 answer whose body is not a JSON object (not JSON at all, or
    a list, a string, a number, [null]) fails the run like an error answer:
    the task is saved as failed with the text of the decoding or attribute
    error, its results are kept, and the paper is not touched. *)
Theorem answer_without_object_fails_task
    env self task_id paper_id w task paper body exc :
  task_of w task_id = Some task →
  paper_of w paper_id = Some paper →
  http env (length (sent w)) = answer 200 body →
  body_error body = Some exc →
  ∃ w' task',
    analyze_paper_task env self task_id paper_id w
    = (Raised (raised_by_failed_run self exc), w')
    ∧ research_papers w' = research_papers w
    ∧ task_of w' task_id = Some task'
    ∧ AIAnalysisTask.status task' = failed
    ∧ AIAnalysisTask.error_message task' = str exc
    ∧ AIAnalysisTask.results task' = AIAnalysisTask.results task.
Proof.
  intros Ht Hp Hhttp Hbody.
  destruct (failed_run_effects env self task_id paper_id w _ _ task
              (analyze_paper_try_bad_body env _ _ _ _ _ _ _ Ht Hp Hhttp Hbody) Ht)
    as (w' & Hrun & _ & Hpapers & Htask).
  exists w'. eexists. split; [exact Hrun|].
  split; [exact Hpapers|]. split; [exact Htask|]. done.
Qed.

Lemma answer_without_object_fails_task_witness :
  ∃ w' task',
    analyze_paper_task
      (demo_env [] (answer 200 (Some (JList [JStr "x"]))) None)
      last_run "task-1" "paper-1" (demo_world queued)
    = (Raised (Exn "AttributeError" "'list' object has no attribute 'get'"), w')
    ∧ research_papers w' = [demo_paper]
    ∧ task_of w' "task-1" = Some task'
    ∧ AIAnalysisTask.status task' = failed
    ∧ AIAnalysisTask.error_message task' = "'list' object has no attribute 'get'"
    ∧ AIAnalysisTask.results task' = JDict [].
Proof.
  exact (answer_without_object_fails_task
           (demo_env [] (answer 200 (Some (JList [JStr "x"]))) None)
           last_run "task-1" "paper-1" (demo_world queued) (demo_task queued)
           demo_paper (Some (JList [JStr "x"])) _ eq_refl eq_refl eq_refl eq_refl).
Defined.





(** ** What a run leaves alone *)

Lemma keeps_task_frames_refl task_id w : keeps_task_frames task_id w w.
Proof. intros pk t Ht. by exists t. Qed.

Lemma keeps_task_frames_trans task_id w1 w2 w3 :
  keeps_task_frames task_id w1 w2 →
  keeps_task_frames task_id w2 w3 →
  keeps_task_frames task_id w1 w3.
Proof.
  intros H12 H23 pk t Ht.
  destruct (H12 pk t Ht) as (t2 & Ht2 & Hframe2 & Hother2).
  destruct (H23 pk t2 Ht2) as (t3 & Ht3 & Hframe3 & Hother3).
  exists t3. split; [done|]. split; [congruence|].
  intros Hne. rewrite (Hother3 Hne). by apply Hother2.
Qed.

Lemma keeps_task_frames_tables task_id w w' :
  ai_analysis_tasks w' = ai_analysis_tasks w → keeps_task_frames task_id w w'.
Proof. intros Heq pk t Ht. exists t. unfold task_of in *. by rewrite Heq. Qed.

(** Saving, under its own key, a record that has the frame of the stored
    one keeps the frames. *)
Lemma keeps_task_frames_save env task_id stored saved w :
  task_of w task_id = Some stored →
  task_frame saved = task_frame stored →
  keeps_task_frames task_id w (AIAnalysisTask_save env saved w).2.
Proof.
  intros Hstored Hframe pk t Ht.
  assert (Hid : AIAnalysisTask.id saved = task_id).
  { unfold task_frame in Hframe. injection Hframe as -> _.
    by eapply table_get_key. }
  destruct (decide (pk = task_id)) as [->|Hne].
  - rewrite (task_of_saved_at env saved task_id w Hid).
    eexists. split; [done|]. split; [|done].
    rewrite Hstored in Ht. injection Ht as <-. by rewrite <- Hframe.
  - exists t. split; [|done].
    rewrite <- Ht. apply (task_of_saved_ne_key env saved w pk). congruence.
Qed.

Section RunFrame.
Context (env : Env).

(** The [try] block writes the task table at most once, saving the task as
    completed. *)
Lemma analyze_paper_try_tasks task_id paper_id w task :
  task_of w task_id = Some task →
  ai_analysis_tasks (analyze_paper_try env task_id paper_id w).2
  = ai_analysis_tasks w
  ∨ ∃ analysis agent w0,
      ai_analysis_tasks w0 = ai_analysis_tasks w
      ∧ ai_analysis_tasks (analyze_paper_try env task_id paper_id w).2
        = ai_analysis_tasks
            (AIAnalysisTask_save env (marked_completed analysis agent task) w0).2.
Proof.
  intros Ht. unfold task_of in Ht. py_unfold. rewrite Ht.
  py_cases; try (by left); right; by eexists _, _, _.
Qed.

Lemma analyze_paper_try_keeps_frames task_id paper_id w :
  keeps_task_frames task_id w (analyze_paper_try env task_id paper_id w).2.
Proof.
  destruct (task_of w task_id) as [task|] eqn:Ht.
  - destruct (analyze_paper_try_tasks task_id paper_id w task Ht)
      as [Hsame|(analysis & agent & w0 & Hw0 & Hsaved)].
    + by apply keeps_task_frames_tables.
    + eapply keeps_task_frames_trans;
        [|apply keeps_task_frames_tables; exact Hsaved].
      eapply keeps_task_frames_trans;
        [apply keeps_task_frames_tables; exact Hw0|].
      apply (keeps_task_frames_save env task_id task).
      * unfold task_of in *. by rewrite Hw0.
      * reflexivity.
  - apply keeps_task_frames_tables. unfold task_of in Ht.
    py_unfold. by rewrite Ht.
Qed.

Lemma analyze_paper_except_keeps_frames self task_id exc w :
  keeps_task_frames task_id w (analyze_paper_except env self task_id exc w).2.
Proof.
  destruct (task_of w task_id) as [task|] eqn:Ht.
  - rewrite (analyze_paper_except_found env self task_id exc w task Ht).
    by apply (keeps_task_frames_save env task_id task).
  - apply keeps_task_frames_tables. unfold task_of in Ht.
    py_unfold. rewrite Ht. py_cases.
Qed.
End RunFrame.

(** X8.  A run of [analyze_paper_task], however it ends, writes of the
    task table only the status, the results, the agent, the error message
    and [updated_at] of its own task: every task row is still there, its
    key, project, requester, type, parameters, papers, [fastapi_task_id],
    [created_at] and [completed_at] are as they were (so [completed_at] is
    never set by a run), and the rows of the other tasks are untouched. *)
Theorem run_keeps_task_frames env self task_id paper_id w :
  keeps_task_frames task_id w (analyze_paper_task env self task_id paper_id w).2.
Proof.
  unfold analyze_paper_task, try_except.
  pose proof (analyze_paper_try_keeps_frames env task_id paper_id w) as Htry.
  destruct (analyze_paper_try env task_id paper_id w) as [[a|exc] w1]; [done|].
  eapply keeps_task_frames_trans; [exact Htry|].
  apply analyze_paper_except_keeps_frames.
Qed.

(** X9.  A run that raises leaves the paper table as it was: whatever goes
    wrong, before the request, in the answer or in the write to the paper,
    no paper is marked failed or changed in any other way. *)
Theorem raising_run_keeps_papers env self task_id paper_id w e :
  (analyze_paper_task env self task_id paper_id w).1 = Raised e →
  research_papers (analyze_paper_task env self task_id paper_id w).2
  = research_papers w.
Proof.
  py_unfold. intros Hraised. py_cases.
Qed.

Lemma raising_run_keeps_papers_witness :
  research_papers
    (analyze_paper_task
       (demo_env [] (answer 200 (Some (JDict analysed)))
          (Some ("OperationalError", "database is locked")))
       last_run "task-1" "paper-1" (demo_world queued)).2
  = [demo_paper].
Proof.
  exact (raising_run_keeps_papers
           (demo_env [] (answer 200 (Some (JDict analysed)))
              (Some ("OperationalError", "database is locked")))
           last_run "task-1" "paper-1" (demo_world queued) _ eq_refl).
Defined.



(** ** [generate_literature_review_task] *)


Lemma task_of_appended w task :
  task_of w (AIAnalysisTask.id task) = None →
  table_get AIAnalysisTask.id (AIAnalysisTask.id task) (ai_analysis_tasks w ++ [task])
  = Some task.
Proof.
  unfold task_of, table_get.
  induction (ai_analysis_tasks w) as [|row rows IH]; simpl.
  - intros _. unfold has_pk. by rewrite bool_decide_eq_true_2.
  - destruct (has_pk AIAnalysisTask.id (AIAnalysisTask.id task) row); [done|].
    apply IH.
Qed.

(** X11.  A review of a project that is not in the table creates no task
    and sends nothing; the caller does not get [DoesNotExist] but the
    [UnboundLocalError] of the [except] block, which names the task before
    there is one. *)
Theorem review_of_missing_project_raises_unbound env project_id parameters w :
  table_get ResearchProject.id project_id (research_projects w) = None →
  ∃ msg,
    generate_literature_review_task env project_id parameters w
    = (Raised (Exn "UnboundLocalError" msg), w).
Proof.
  intros Hmissing.
  unfold generate_literature_review_task, review_create, ResearchProject_get, bind.
  rewrite Hmissing. by eexists.
Qed.

Lemma review_of_missing_project_raises_unbound_witness :
  ∃ msg,
    generate_literature_review_task (demo_env [] unavailable None) "project-9"
      (JDict []) (demo_world queued)
    = (Raised (Exn "UnboundLocalError" msg), demo_world queued).
Proof.
  apply (review_of_missing_project_raises_unbound (demo_env [] unavailable None)
           "project-9" (JDict []) (demo_world queued)).
  reflexivity.
Defined.








(** ** More on the health sweep *)

(** One pass of the loop body writes the service table only. *)
Lemma check_service_other_tables env service w :
  let w' := (check_service env service w).2 in
  research_projects w' = research_projects w
  ∧ research_papers w' = research_papers w
  ∧ ai_analysis_tasks w' = ai_analysis_tasks w
  ∧ sent w' = (sent w ++ [health_request service])%list.
Proof.
  unfold check_service, mark_checked, ServiceIntegration_save, httpx_send.
  unfold timezone_now. unfold bind, try_except, ret.
  by destruct (http env (length (sent w))) as [r|cls msg].
Qed.

Lemma sweep_loop_other_tables env actives :
  ∀ w,
    let w' := (for_each actives (check_service env) w).2 in
    research_projects w' = research_projects w
    ∧ research_papers w' = research_papers w
    ∧ ai_analysis_tasks w' = ai_analysis_tasks w
    ∧ sent w' = (sent w ++ map health_request actives)%list.
Proof.
  induction actives as [|service rest IH]; intros w; cbv zeta.
  - simpl. by rewrite app_nil_r.
  - destruct (check_service_run env service w) as (w1 & Hrun & _).
    pose proof (check_service_other_tables env service w) as Hone.
    rewrite Hrun in Hone. simpl in Hone.
    destruct Hone as (Hprojects & Hpapers & Htasks & Hsent).
    cbn [for_each]. unfold bind. rewrite Hrun.
    pose proof (IH w1) as Hrest. cbv zeta in Hrest.
    destruct Hrest as (Hprojects' & Hpapers' & Htasks' & Hsent').
    rewrite Hprojects', Hpapers', Htasks', Hsent', Hsent, <- app_assoc.
    by repeat split.
Qed.

(** X15.  A sweep sends one GET per active service and no other request:
    in the order of the table, to the service's URL followed by [/health],
    with a timeout of ten seconds.  It writes no table but the service
    table. *)
Theorem sweep_sends_one_get_per_active_service env w :
  let w' := (health_check_services env w).2 in
  drop (length (sent w)) (sent w')
  = (λ s, {| method := GET;
             url := ServiceIntegration.service_url s +:+ "/health";
             payload := JNull;
             timeout := 10 |})
      <$> List.filter ServiceIntegration.is_active (service_integrations w)
  ∧ research_projects w' = research_projects w
  ∧ research_papers w' = research_papers w
  ∧ ai_analysis_tasks w' = ai_analysis_tasks w.
Proof.
  unfold health_check_services.
  destruct (sweep_loop_other_tables env
              (List.filter ServiceIntegration.is_active (service_integrations w)) w)
    as (Hprojects & Hpapers & Htasks & Hsent).
  rewrite Hsent, drop_app_length. by repeat split.
Qed.

(** X16.  A sweep leaves a service that is not active exactly as it is
    stored: its health flag, its last check and its [updated_at] stay, so
    a service switched off while healthy reads as healthy from then on. *)
Theorem sweep_skips_inactive_services env w service :
  unique_services w →
  In service (service_integrations w) →
  ServiceIntegration.is_active service = false →
  service_of (health_check_services env w).2 (ServiceIntegration.id service)
  = Some service.
Proof.
  intros Hunique Hin Hinactive. unfold health_check_services.
  destruct (sweep_loop env
              (List.filter ServiceIntegration.is_active (service_integrations w)) w)
    as (w' & Hloop & _ & _ & _ & Hother).
  { by apply NoDup_map_filter. }
  rewrite Hloop. simpl. rewrite Hother.
  - unfold service_of, table_get.
    destruct (List.find _ (service_integrations w)) as [found|] eqn:Hfind.
    + apply List.find_some in Hfind as [Hfound Hpk].
      unfold has_pk in Hpk. apply bool_decide_eq_true in Hpk.
      f_equal. by eapply NoDup_map_In_inj.
    + exfalso. eapply List.find_none in Hfind; [|exact Hin].
      unfold has_pk in Hfind. by rewrite bool_decide_eq_true_2 in Hfind.
  - intros Hactive.
    apply list_elem_of_In, in_map_iff in Hactive as (other & Hid & Hother_in).
    apply filter_In in Hother_in as [Hother_in Hother_active].
    assert (other = service) as -> by (by eapply NoDup_map_In_inj).
    congruence.
Qed.

Lemma sweep_skips_inactive_services_witness :
  service_of (health_check_services (demo_env [] unavailable None)
                (demo_world queued)).2 4
  = Some (demo_service 4 "archive" false).
Proof.
  apply (sweep_skips_inactive_services (demo_env [] unavailable None)
           (demo_world queued) (demo_service 4 "archive" false)).
  - unfold unique_services. apply (bool_decide_unpack _). vm_compute. exact I.
  - simpl. tauto.
  - reflexivity.
Defined.

(** ** The clients of [core/services.py] *)

(** X17.  [FastAPIService.health_check] never raises: it sends one GET and
    returns the verdict the sweep would store for the same answer, [True]
    for a 200 and [False] for every other answer and for every exception
    of the request. *)
Theorem health_check_never_raises env w :
  FastAPIService_health_check env w
  = (Returned (healthy_answer (http env (length (sent w)))),
     with_sent (sent w ++ [{| method := GET;
                              url := FASTAPI_SERVICE_URL env +:+ "/health";
                              payload := JNull;
                              timeout := 5 |}]) w).
Proof.
  unfold FastAPIService_health_check, try_except, bind, httpx_send, ret, healthy_answer.
  by destruct (http env (length (sent w))) as [r|cls msg].
Qed.

(** X18.  [AIAgentService.get_agent_status] never raises: it sends one GET
    to [/status] and returns the JSON document of a 2xx answer; a transport
    error, an answer with an error status (4xx, 5xx) and a 2xx body that is
    not JSON all give [None]. *)
Theorem get_agent_status_never_raises env self w :
  ∃ status,
    AIAgentService_get_agent_status env self w
    = (Returned status,
       with_sent (sent w ++ [{| method := GET;
                                url := base_url self +:+ "/status";
                                payload := JNull;
                                timeout := 10 |}]) w)
    ∧ match http env (length (sent w)) with
      | Answered r =>
          (200 ≤ status_code r ≤ 299 → status = default JNull (content r))
          ∧ (400 ≤ status_code r → status = JNull)
      | TransportError _ _ => status = JNull
      end.
Proof.
  unfold AIAgentService_get_agent_status, try_except, bind, httpx_send,
    raise_for_status, response_json, ret, raise.
  destruct (http env (length (sent w))) as [[code body]|cls msg]; simpl.
  - destruct (Z.leb_spec 200 code), (Z.leb_spec code 299); simpl;
      try (eexists; split; [reflexivity|]; split; intros; [lia || done | lia || done]).
    destruct body; eexists; split; try reflexivity; split; intros; done || lia.
  - by eexists.
Qed.

(** ** More on the views *)

(** X19.  The views answer for the records of another user as for records
    that do not exist: a cancel of a task the user did not request, an
    analysis of a paper in a project the user does not own and the
    analytics of such a project raise [Http404], and nothing is written or
    sent. *)
Theorem views_hide_other_users_records env svc request_user w :
  (∀ pk task,
     task_of w pk = Some task →
     AIAnalysisTask.requested_by task ≠ Some request_user →
     AIAnalysisTaskViewSet_cancel env svc request_user pk w = (Raised http404, w))
  ∧ (∀ pk,
       task_of w pk = None →
       AIAnalysisTaskViewSet_cancel env svc request_user pk w = (Raised http404, w))
  ∧ (∀ pk request_data paper,
       paper_of w pk = Some paper →
       owned_paper request_user w paper = false →
       ResearchPaperViewSet_analyze env svc request_user request_data pk w
       = (Raised http404, w))
  ∧ (∀ pk project,
       table_get ResearchProject.id pk (research_projects w) = Some project →
       ResearchProject.owner project ≠ request_user →
       ResearchProjectViewSet_analytics request_user pk w = (Raised http404, w)).
Proof.
  repeat split.
  - intros pk task Ht Hother. unfold task_of in Ht.
    unfold AIAnalysisTaskViewSet_cancel, AIAnalysisTaskViewSet_get_object, bind.
    rewrite Ht. by rewrite bool_decide_eq_false_2.
  - intros pk Ht. unfold task_of in Ht.
    unfold AIAnalysisTaskViewSet_cancel, AIAnalysisTaskViewSet_get_object, bind.
    by rewrite Ht.
  - intros pk request_data paper Hp Hother. unfold paper_of in Hp.
    unfold ResearchPaperViewSet_analyze, ResearchPaperViewSet_get_object, bind.
    by rewrite Hp, Hother.
  - intros pk project Hproject Hother.
    unfold ResearchProjectViewSet_analytics, ResearchProjectViewSet_get_object, bind.
    rewrite Hproject.
    destruct (String.eqb_spec (ResearchProject.owner project) request_user); done.
Qed.

Lemma views_hide_other_users_records_witness :
  let env := demo_env [] (answer 200 None) None in
  AIAnalysisTaskViewSet_cancel env (FastAPIService_awaited env) "bob" "task-1"
    (demo_world queued)
  = (Raised http404, demo_world queued)
  ∧ ResearchPaperViewSet_analyze env (FastAPIService_awaited env) "bob" (JDict [])
      "paper-1" (demo_world queued)
    = (Raised http404, demo_world queued).
Proof.
  intros env.
  destruct (views_hide_other_users_records env (FastAPIService_awaited env) "bob"
              (demo_world queued)) as (Hcancel & _ & Hanalyze & _).
  split.
  - apply (Hcancel "task-1" (demo_task queued)); [reflexivity|discriminate].
  - apply (Hanalyze "paper-1" (JDict []) demo_paper); reflexivity.
Defined.




(** The same call on the small world, computed: the task is processing and
    carries the key the service answered with. *)
Example analyze_stores_remote_key :
  let env := demo_env [] (answer 201 (Some (JDict [("task_id", JStr "remote-7")]))) None in
  let w' := (ResearchPaperViewSet_analyze env (FastAPIService_awaited env) "alice"
               (JDict []) "paper-1" (demo_world queued)).2 in
  (λ t, (AIAnalysisTask.status t, AIAnalysisTask.fastapi_task_id t))
    <$> task_of w' "uuid-0"
  = Some (processing, JStr "remote-7").
Proof. by vm_compute. Qed.



(** X22.  Called the way the views call them, without awaiting the
    coroutine, the client methods send nothing: neither [analyze] nor
    [cancel] issues a request, whatever the tables and the request
    hold. *)
Theorem views_as_written_send_nothing env request_user request_data pk w :
  sent (ResearchPaperViewSet_analyze env FastAPIService_unawaited
          request_user request_data pk w).2 = sent w
  ∧ sent (AIAnalysisTaskViewSet_cancel env FastAPIService_unawaited
            request_user pk w).2 = sent w.
Proof.
  split.
  - unfold ResearchPaperViewSet_analyze, ResearchPaperViewSet_get_object,
      analyze_create, analyze_send, AIAnalysisTask_create,
      AIAnalysisTask_papers_add, py_get, AIAnalysisTask_save, uuid_uuid4.
    unfold timezone_now. unfold try_except, bind, ret, raise. simpl.
    py_cases.
  - unfold AIAnalysisTaskViewSet_cancel, AIAnalysisTaskViewSet_get_object,
      AIAnalysisTask_save.
    unfold timezone_now. unfold try_except, bind, ret, raise. simpl.
    py_cases.
Qed.

(** ** The analytics of a project *)

#[local] Instance newest_first_total : Total newest_first.
Proof. intros p q. unfold newest_first. lia. Qed.

#[local] Instance newest_first_trans : Transitive newest_first.
Proof. intros p q r. unfold newest_first. lia. Qed.

(** X23.  The analytics of a project the user owns change nothing and
    count consistently: the completed tasks are among the tasks, and the
    recent papers are [min 5 paper_count] papers of the project, newest
    first, none of them older than a paper of the project that is left
    out. *)
Theorem analytics_counts_and_recent_papers request_user pk w project :
  table_get ResearchProject.id pk (research_projects w) = Some project →
  ResearchProject.owner project = request_user →
  ∃ a shown rest,
    ResearchProjectViewSet_analytics request_user pk w = (Returned a, w)
    ∧ (completed_tasks a ≤ task_count a)%nat
    ∧ paper_count a = length (project_papers pk w)
    ∧ recent_papers a
      = (λ p, (ResearchPaper.title p, ResearchPaper.created_at p,
               ResearchPaper.processing_status p)) <$> shown
    ∧ shown ++ rest ≡ₚ project_papers pk w
    ∧ length shown = (5 `min` paper_count a)%nat
    ∧ StronglySorted newest_first shown
    ∧ ∀ p q, p ∈ shown → q ∈ rest →
        ResearchPaper.created_at q ≤ ResearchPaper.created_at p.
Proof.
  intros Hproject Howner.
  pose proof (table_get_key _ _ _ _ Hproject) as Hid. subst pk.
  set (papers := project_papers (ResearchProject.id project) w).
  pose proof (StronglySorted_merge_sort newest_first papers) as Hsorted.
  pose proof (merge_sort_Permutation newest_first papers) as Hperm.
  pose proof (Permutation_length Hperm) as Hlength.
  rewrite <- (take_drop 5 (merge_sort newest_first papers)) in Hsorted, Hperm.
  eexists _, (take 5 (merge_sort newest_first papers)),
    (drop 5 (merge_sort newest_first papers)).
  split.
  { unfold ResearchProjectViewSet_analytics, ResearchProjectViewSet_get_object, bind.
    rewrite Hproject, Howner, String.eqb_refl. reflexivity. }
  simpl. split; [apply filter_length_le|]. split; [done|]. split; [done|].
  split; [exact Hperm|]. split.
  { rewrite length_take, Hlength. done. }
  split; [by eapply StronglySorted_app_1_l|].
  intros p q Hp Hq. by eapply (StronglySorted_app_1_elem_of newest_first).
Qed.

Lemma analytics_counts_and_recent_papers_witness :
  ∃ a shown rest,
    ResearchProjectViewSet_analytics "alice" "project-1" (demo_world completed)
    = (Returned a, demo_world completed)
    ∧ (completed_tasks a ≤ task_count a)%nat
    ∧ paper_count a = length (project_papers "project-1" (demo_world completed))
    ∧ recent_papers a
      = (λ p, (ResearchPaper.title p, ResearchPaper.created_at p,
               ResearchPaper.processing_status p)) <$> shown
    ∧ shown ++ rest ≡ₚ project_papers "project-1" (demo_world completed)
    ∧ length shown = (5 `min` paper_count a)%nat
    ∧ StronglySorted newest_first shown
    ∧ ∀ p q, p ∈ shown → q ∈ rest →
        ResearchPaper.created_at q ≤ ResearchPaper.created_at p.
Proof.
  exact (analytics_counts_and_recent_papers
           "alice" "project-1" (demo_world completed) demo_project
           eq_refl eq_refl).
Defined.

(** ** [AIAnalysisTask.mark_completed] *)

Lemma table_get_existsb {A K} `{EqDecision K} (key : A → K) k rows row :
  table_get key k rows = Some row → existsb (has_pk key k) rows = true.
Proof.
  intros Hget. apply existsb_exists. exists row. split.
  - by eapply table_get_In.
  - unfold has_pk. apply bool_decide_eq_true_2. by eapply table_get_key.
Qed.

(** X24.  [mark_completed] writes two columns of the stored row and no
    more: the row becomes completed, whatever its status was, with the
    clock reading as [completed_at], and keeps what is stored in its other
    columns ([updated_at] too) even where the instance at hand differs;
    the other rows are untouched.  When no row has the key of the instance
    it raises and writes nothing. *)
Theorem mark_completed_writes_two_columns env task w :
  (∀ stored,
     task_of w (AIAnalysisTask.id task) = Some stored →
     ∃ w',
       AIAnalysisTask_mark_completed env task w
       = (Returned (set_completed_at (Some (now env (clock_reads w)))
                      (AIAnalysisTask.set_status completed task)), w')
       ∧ task_of w' (AIAnalysisTask.id task)
         = Some (set_completed_at (Some (now env (clock_reads w)))
                   (AIAnalysisTask.set_status completed stored))
       ∧ ∀ pk, pk ≠ AIAnalysisTask.id task → task_of w' pk = task_of w pk)
  ∧ (task_of w (AIAnalysisTask.id task) = None →
     ∃ msg w',
       AIAnalysisTask_mark_completed env task w = (Raised (Exn "DatabaseError" msg), w')
       ∧ ai_analysis_tasks w' = ai_analysis_tasks w).
Proof.
  unfold AIAnalysisTask_mark_completed, timezone_now, bind, task_of.
  cbn [ai_analysis_tasks with_clock_reads clock_reads].
  assert (Hmark : ∀ k t,
            has_pk AIAnalysisTask.id k
              (set_completed_at (Some (now env (clock_reads w)))
                 (AIAnalysisTask.set_status completed t))
            = has_pk AIAnalysisTask.id k t) by reflexivity.
  split.
  - intros stored Hstored.
    rewrite (table_get_existsb _ _ _ _ Hstored).
    eexists. split; [reflexivity|].
    cbn [ai_analysis_tasks with_tasks]. unfold table_get in *.
    split.
    + induction (ai_analysis_tasks w) as [|row rows IH]; simpl in *; [done|].
      destruct (has_pk AIAnalysisTask.id (AIAnalysisTask.id task) row) eqn:Hrow.
      * injection Hstored as <-. by rewrite Hmark, Hrow.
      * simpl. rewrite Hrow. by apply IH.
    + intros pk Hpk. clear Hstored.
      induction (ai_analysis_tasks w) as [|row rows IH]; simpl; [done|].
      destruct (has_pk AIAnalysisTask.id (AIAnalysisTask.id task) row) eqn:Hrow.
      * rewrite Hmark.
        assert (has_pk AIAnalysisTask.id pk row = false) as ->; [|exact IH].
        unfold has_pk in *. apply bool_decide_eq_true in Hrow.
        apply bool_decide_eq_false_2. congruence.
      * destruct (has_pk AIAnalysisTask.id pk row); [done|exact IH].
  - intros Hmissing.
    assert (existsb (has_pk AIAnalysisTask.id (AIAnalysisTask.id task))
              (ai_analysis_tasks w) = false) as ->; [|by eexists _, _].
    apply not_true_is_false. intros Hex.
    apply existsb_exists in Hex as (row & Hin & Hrow).
    eapply List.find_none in Hmissing; [|exact Hin]. congruence.
Qed.

(** A task failed by a run is marked completed: the error message of the
    failure stays in the stored row. *)
Lemma mark_completed_writes_two_columns_witness :
  let env := demo_env [] unavailable None in
  let stored := AIAnalysisTask.set_error_message "FastAPI service error: 503"
                  (demo_task failed) in
  let w := with_tasks [stored] (demo_world queued) in
  ∃ w',
    AIAnalysisTask_mark_completed env (demo_task queued) w
    = (Returned (set_completed_at (Some 1000)
                   (AIAnalysisTask.set_status completed (demo_task queued))), w')
    ∧ task_of w' "task-1"
      = Some (set_completed_at (Some 1000)
                (AIAnalysisTask.set_status completed stored))
    ∧ ∀ pk, pk ≠ "task-1" → task_of w' pk = task_of w pk.
Proof.
  intros env stored w.
  exact (proj1 (mark_completed_writes_two_columns env (demo_task queued) w)
           stored eq_refl).
Defined.
